(** * DeepSeek Engineer: tool-calling loop, history truncation, snippet edits

    A shallow embedding of [deepseek-eng-new.py] and the properties of its
    tool-call assembler, its conversation-history management, its snippet
    editor, its tool dispatcher, its git handlers, its directory scan and the
    commands typed by the user.

    Python [str] values are Rocq [string]s, Python lists are Rocq lists,
    dictionaries with a fixed set of keys are records, the filesystem is a
    finite map from resolved paths to file contents, and functions that print,
    touch the filesystem, start a subprocess or raise are computations over an
    explicit [World] that end in a value or in an exception.

    What lies outside the program is a parameter ([Env]): path resolution, the
    JSON decoder, what a subprocess answers, and the rendering of values.
    Three things are idealised: a file that exists can be read and any file
    can be written; printing on the console records the text and does not
    fail; and only exceptions derived from [Exception] occur. *)

From Stdlib Require Import String Ascii List Bool Arith ZArith Lia.
From stdpp Require Import base tactics option list strings pretty gmap.

Set Warnings "-register-all".


(** ** Python [str] operations used by the program *)

Module Str.

(** [s.startswith(p)] *)
Fixpoint startswith (p s : string) : bool :=
  match p, s with
  | EmptyString, _ => true
  | String _ _, EmptyString => false
  | String a p', String b s' => if decide (a = b) then startswith p' s' else false
  end.

(** [sub in s] *)
Fixpoint contains (sub s : string) : bool :=
  match s with
  | EmptyString => startswith sub EmptyString
  | String _ s' => startswith sub s || contains sub s'
  end.

(** [s[n:]] *)
Fixpoint drop (n : nat) (s : string) : string :=
  match n, s with
  | 0, _ => s
  | S _, EmptyString => EmptyString
  | S n', String _ s' => drop n' s'
  end.

(** [s.count(sub)] for a non-empty [sub]: occurrences are counted from the
    left and do not overlap, so after a match the scan resumes behind it;
    [skip] is the number of characters of the last match still to pass. *)
Fixpoint count_from (sub : string) (skip : nat) (s : string) : nat :=
  match s with
  | EmptyString => 0
  | String _ s' =>
      match skip with
      | S k => count_from sub k s'
      | 0 => if startswith sub s
             then S (count_from sub (String.length sub - 1) s')
             else count_from sub 0 s'
      end
  end.

(** [s.count(sub)]; the empty string is counted once between any two
    characters and at both ends. *)
Definition count (s sub : string) : nat :=
  match sub with
  | EmptyString => S (String.length s)
  | String _ _ => count_from sub 0 s
  end.

(** [s.replace(old, new, 1)]: the leftmost occurrence only. *)
Fixpoint replace_first (old new s : string) : string :=
  if startswith old s then new +:+ drop (String.length old) s
  else match s with
       | EmptyString => EmptyString
       | String c s' => String c (replace_first old new s')
       end.

(** [s[:n]] *)
Fixpoint take (n : nat) (s : string) : string :=
  match n, s with
  | 0, _ => EmptyString
  | S _, EmptyString => EmptyString
  | S n', String c s' => String c (take n' s')
  end.

(** [s[a:b]] for [0 <= a] *)
Definition slice (a b : nat) (s : string) : string := take (b - a) (drop a s).

(** [s.find(sub)]: the lowest index of an occurrence, [-1] when there is none. *)
Fixpoint find (sub s : string) : Z :=
  if startswith sub s then 0%Z
  else match s with
       | EmptyString => (-1)%Z
       | String _ s' => let r := find sub s' in if decide (r = -1)%Z then (-1)%Z else (r + 1)%Z
       end.

(** The ASCII characters that [str.strip()] removes. *)
Definition is_whitespace (c : ascii) : bool :=
  let n := nat_of_ascii c in
  bool_decide (n = 32) || bool_decide (9 ≤ n ≤ 13) || bool_decide (28 ≤ n ≤ 31).

Fixpoint lstrip (s : string) : string :=
  match s with
  | EmptyString => EmptyString
  | String c s' => if is_whitespace c then lstrip s' else s
  end.

(** [s.strip()] *)
Definition strip (s : string) : string :=
  String.rev (lstrip (String.rev (lstrip s))).

Definition lower_char (c : ascii) : ascii :=
  let n := nat_of_ascii c in
  if bool_decide (65 ≤ n ≤ 90) then ascii_of_nat (n + 32) else c.

(** [s.lower()] on ASCII letters *)
Fixpoint lower (s : string) : string :=
  match s with
  | EmptyString => EmptyString
  | String c s' => String (lower_char c) (lower s')
  end.

(** [s.split(sep)] for a one-character separator *)
Fixpoint split (sep : ascii) (s : string) : list string :=
  match s with
  | EmptyString => [EmptyString]
  | String c s' =>
      if decide (c = sep) then EmptyString :: split sep s'
      else match split sep s' with
           | [] => [String c EmptyString]
           | p :: ps => String c p :: ps
           end
  end.

(** [sep.join(parts)] *)
Fixpoint join (sep : string) (parts : list string) : string :=
  match parts with
  | [] => EmptyString
  | [p] => p
  | p :: rest => p +:+ sep +:+ join sep rest
  end.

(** The characters of a string, as iteration over it yields them. *)
Fixpoint chars (s : string) : list string :=
  match s with
  | EmptyString => []
  | String c s' => String c EmptyString :: chars s'
  end.

End Str.

(** The line feed and the double quote, for texts that contain them. *)
Definition LF : string := String "010" EmptyString.
Definition DQUOTE : string := String (ascii_of_nat 34) EmptyString.

(** ** Tool calls and the streamed fragments they are assembled from *)

(** [{"name": ..., "arguments": ...}] *)
Record FunctionCall := mkFunctionCall {
  name : string;
  arguments : string
}.

(** [{"id": ..., "type": "function", "function": {...}}] *)
Record ToolCall := mkToolCall {
  id : string;
  type_ : string;
  function : FunctionCall
}.

Global Instance FunctionCall_eq_dec : EqDecision FunctionCall.
Proof. solve_decision. Defined.
Global Instance ToolCall_eq_dec : EqDecision ToolCall.
Proof. solve_decision. Defined.

(** The [function] part of a streamed tool-call chunk; a field that is [None]
    was not sent. *)
Record FunctionDelta := mkFunctionDelta {
  delta_name : option string;
  delta_arguments : option string
}.

(** One element of [delta.tool_calls]. *)
Record ToolCallChunk := mkChunk {
  index : nat;
  chunk_id : option string;
  chunk_function : option FunctionDelta
}.

(** Python truthiness of an optional string: [None] and [""] are false. *)
Definition truthy (o : option string) : option string :=
  match o with
  | Some EmptyString | None => None
  | Some s => Some s
  end.

(** The placeholder appended while the working list is too short. *)
Definition empty_tool_call : ToolCall :=
  mkToolCall "" "function" (mkFunctionCall "" "").

(** [while len(accumulated_tool_calls) <= idx: accumulated_tool_calls.append({...})] *)
Definition pad_to (idx : nat) (acc : list ToolCall) : list ToolCall :=
  acc ++ replicate (S idx - length acc) empty_tool_call.

(** The updates of [current_tool_dict] made for one chunk. *)
Definition apply_chunk (ch : ToolCallChunk) (d : ToolCall) : ToolCall :=
  let d1 :=
    match truthy (chunk_id ch) with
    | Some i => mkToolCall i (type_ d) (function d)
    | None => d
    end in
  match chunk_function ch with
  | None => d1
  | Some f =>
      let fn1 :=
        match truthy (delta_name f) with
        | Some n => mkFunctionCall n (arguments (function d1))
        | None => function d1
        end in
      let fn2 :=
        match truthy (delta_arguments f) with
        | Some a => mkFunctionCall (name fn1) (arguments fn1 +:+ a)
        | None => fn1
        end in
      mkToolCall (id d1) (type_ d1) fn2
  end.

(** The body of [for tool_call_chunk in delta.tool_calls]. *)
Definition accumulate_chunk (acc : list ToolCall) (ch : ToolCallChunk) : list ToolCall :=
  alter (apply_chunk ch) (index ch) (pad_to (index ch) acc).

(** The whole accumulation of one streamed reply, starting from [[]]. *)
Definition accumulate (chunks : list ToolCallChunk) : list ToolCall :=
  foldl accumulate_chunk [] chunks.

(** ** Conversation entries *)

Inductive Role := system | user | assistant | tool.

Global Instance Role_eq_dec : EqDecision Role.
Proof. solve_decision. Defined.

(** A message dictionary of [conversation_history]. The keys [tool_calls],
    [tool_call_id] and [name] are optional; [None] is an absent key. *)
Record Msg := mkMsg {
  role : Role;
  content : string;
  tool_calls : option (list ToolCall);
  tool_call_id : option string;
  tool_name : option string
}.

Global Instance Msg_eq_dec : EqDecision Msg.
Proof. solve_decision. Defined.

Definition system_msg (c : string) : Msg := mkMsg system c None None None.
Definition user_msg (c : string) : Msg := mkMsg user c None None None.

Definition is_role (r : Role) (m : Msg) : bool := bool_decide (role m = r).

(** [msg.get("tool_calls")] as a condition: present and not the empty list. *)
Definition has_tool_calls (m : Msg) : bool :=
  match tool_calls m with
  | Some (_ :: _) => true
  | _ => false
  end.

(** ["User added file" in msg["content"]] *)
Definition mentions_added_file (m : Msg) : bool :=
  Str.contains "User added file" (content m).

(** [l[-n:]] for a positive [n] *)
Definition last_n {A} (n : nat) (l : list A) : list A :=
  drop (length l - n) l.

(** ** [smart_truncate_history] *)

(** The selection made when there is more than one system message: the first
    one, then the last three of the others that mention an added file. *)
Definition important_system (system_messages : list Msg) : list Msg :=
  if bool_decide (1 < length system_messages) then
    match system_messages with
    | [] => []
    | first :: others => first :: last_n 3 (filter (λ m, mentions_added_file m = true) others)
    end
  else system_messages.

(** The backward [while i >= 0 and len(keep_messages) < messages_to_keep]
    loop. [rest] is [other_messages[0..i]] read from index [i] downwards, so
    its head is [other_messages[i]] and [i >= 0] is [rest <> []].

    [scan_back] is one turn of the outer loop. [collect_run] is the inner
    [while i >= 0 and other_messages[i]["role"] == "tool"] loop followed by
    the test for the assistant message; [tool_sequence + keep_messages] is
    built one message at a time. When the message before the run is not an
    assistant message with tool calls, the outer loop handles it next: it is
    not a tool message, so it is kept if the quota allows. *)
Fixpoint scan_back (messages_to_keep : Z) (rest keep_messages : list Msg) : list Msg :=
  match rest with
  | [] => keep_messages
  | current_msg :: rest' =>
      if bool_decide (Z.of_nat (length keep_messages) < messages_to_keep)%Z then
        if is_role tool current_msg
        then collect_run messages_to_keep rest' (current_msg :: keep_messages)
        else scan_back messages_to_keep rest' (current_msg :: keep_messages)
      else keep_messages
  end
with collect_run (messages_to_keep : Z) (rest keep_messages : list Msg) : list Msg :=
  match rest with
  | [] => keep_messages
  | m :: rest' =>
      if is_role tool m
      then collect_run messages_to_keep rest' (m :: keep_messages)
      else if is_role assistant m && has_tool_calls m
      then scan_back messages_to_keep rest' (m :: keep_messages)
      else if bool_decide (Z.of_nat (length keep_messages) < messages_to_keep)%Z
      then scan_back messages_to_keep rest' (m :: keep_messages)
      else keep_messages
  end.

Definition smart_truncate_history (conversation_history : list Msg) (max_messages : Z)
  : list Msg :=
  if bool_decide (Z.of_nat (length conversation_history) ≤ max_messages)%Z
  then conversation_history
  else
    let system_messages := filter (λ m, role m = system) conversation_history in
    let other_messages := filter (λ m, role m ≠ system) conversation_history in
    let system_messages := important_system system_messages in
    let messages_to_keep := (max_messages - Z.of_nat (length system_messages))%Z in
    let keep_messages := scan_back messages_to_keep (reverse other_messages) [] in
    let result := system_messages ++ keep_messages in
    if bool_decide (max_messages < Z.of_nat (length result))%Z then
      let excess := (Z.of_nat (length result) - max_messages)%Z in
      system_messages ++ drop (Z.to_nat excess) keep_messages
    else result.

(** [MAX_HISTORY_MESSAGES] of the main loop, also the default of
    [max_messages]. *)
Definition MAX_HISTORY_MESSAGES : Z := 50.

(** ** [add_file_context_smartly] *)

(** [f"User added file '{file_path}'"] *)
Definition file_marker (file_path : string) : string :=
  "User added file '" +:+ file_path +:+ "'".

(** The test of the first comprehension: a system message that contains the
    marker of this file. *)
Definition is_context_of (file_path : string) (m : Msg) : bool :=
  is_role system m && Str.contains (file_marker file_path) (content m).

(** The test used for counting and evicting: a system message that mentions
    an added file. *)
Definition is_file_context (m : Msg) : bool :=
  is_role system m && mentions_added_file m.

(** The eviction loop; [removed_count] counts the messages skipped so far and
    [limit] is [file_context_count - max_context_files + 1]. *)
Fixpoint evict_oldest (limit : Z) (removed_count : nat) (h : list Msg) : list Msg :=
  match h with
  | [] => []
  | msg :: h' =>
      if is_file_context msg && bool_decide (Z.of_nat removed_count < limit)%Z
      then evict_oldest limit (S removed_count) h'
      else msg :: evict_oldest limit removed_count h'
  end.

(** [f"{marker}. Content:\n\n{content}"] *)
Definition file_context_msg (file_path file_content : string) : Msg :=
  system_msg (file_marker file_path +:+ ". Content:" +:+
              String "010" (String "010" file_content)).

(** The history after the call; the source updates the list in place. *)
Definition add_file_context_smartly
    (conversation_history : list Msg) (file_path file_content : string)
    (max_context_files : Z) : list Msg :=
  let h1 := filter (λ m, is_context_of file_path m = false) conversation_history in
  let file_context_count := length (filter (λ m, is_file_context m = true) h1) in
  let h2 :=
    if bool_decide (max_context_files ≤ Z.of_nat file_context_count)%Z
    then evict_oldest (Z.of_nat file_context_count - max_context_files + 1) 0 h1
    else h1 in
  h2 ++ [file_context_msg file_path file_content].

(** The default of [max_context_files]. *)
Definition DEFAULT_MAX_CONTEXT_FILES : Z := 5.

(** ** Deliveries of a set of tool calls (the statement side of the
    chunk-invariance property) *)

(** A complete tool call as the model means it: identifier, operation name and
    the full arguments text. *)
Record CallSpec := mkCallSpec {
  call_id : string;
  call_name : string;
  call_arguments : string
}.


(** The call delivered as one unsplit fragment at position [k]. *)
Definition whole_chunk (k : nat) (c : CallSpec) : ToolCallChunk :=
  mkChunk k (Some (call_id c))
    (Some (mkFunctionDelta (Some (call_name c)) (Some (call_arguments c)))).

Definition unsplit (calls : list CallSpec) : list ToolCallChunk :=
  imap whole_chunk calls.

(** The fragments of a stream that belong to position [k], in arrival order. *)
Definition chunks_at (k : nat) (chunks : list ToolCallChunk) : list ToolCallChunk :=
  filter (λ ch, index ch = k) chunks.

Definition chunk_name (ch : ToolCallChunk) : option string :=
  chunk_function ch ≫= delta_name.

(** The arguments text carried by a fragment; an absent part carries none. *)
Definition chunk_arguments (ch : ToolCallChunk) : string :=
  default EmptyString (chunk_function ch ≫= delta_arguments).

Fixpoint concat_strings (l : list string) : string :=
  match l with
  | [] => EmptyString
  | s :: l' => s +:+ concat_strings l'
  end.

(** A whole-valued field split over fragments: each fragment either leaves the
    field out or carries the whole value, and a non-empty value is carried by
    at least one fragment. *)
Definition carries_whole (field : ToolCallChunk → option string) (v : string)
    (fs : list ToolCallChunk) : bool :=
  forallb (λ ch, match truthy (field ch) with
                 | None => true
                 | Some x => bool_decide (x = v)
                 end) fs
  && (bool_decide (v = EmptyString)
      || existsb (λ ch, bool_decide (truthy (field ch) = Some v)) fs).

(** The fragments [fs] at one position deliver the call [c]: at least one
    fragment arrives, id and name arrive whole, and the arguments chunks, in
    arrival order, concatenate to the arguments text. *)
Definition delivers_call (c : CallSpec) (fs : list ToolCallChunk) : bool :=
  bool_decide (fs ≠ [])
  && carries_whole chunk_id (call_id c) fs
  && carries_whole chunk_name (call_name c) fs
  && bool_decide (concat_strings (map chunk_arguments fs) = call_arguments c).

(** [chunks] is some way of streaming [calls]: every fragment is addressed to
    one of the calls, and the fragments of each position deliver its call. The
    fragments of different positions may interleave in any way. *)
Definition streams (calls : list CallSpec) (chunks : list ToolCallChunk) : bool :=
  forallb (λ ch, bool_decide (index ch < length calls)) chunks
  && forallb (λ b : bool, b) (imap (λ k c, delivers_call c (chunks_at k chunks)) calls).

(** The entry of a working list at position [k], reading a position not yet
    allocated as the placeholder that padding would put there. *)
Definition view (acc : list ToolCall) (k : nat) : ToolCall :=
  default empty_tool_call (acc !! k).

(** The length that the positions of [chunks] require of the working list. *)
Definition needed (chunks : list ToolCallChunk) : nat :=
  foldr (λ ch n, S (index ch) `max` n) 0 chunks.

(** The fragments [fs] of one position applied, in order, to its entry. *)
Definition apply_chunks (d : ToolCall) (fs : list ToolCallChunk) : ToolCall :=
  foldl (λ d ch, apply_chunk ch d) d fs.

(** A transformation of the history keeps [first] as the first system
    message. *)
Definition keeps_first_system (g : list Msg → list Msg) (first : Msg) : Prop :=
  ∀ h, head (filter (λ m, role m = system) h) = Some first →
       head (filter (λ m, role m = system) (g h)) = Some first.

(** ** Decoded JSON values *)

(** A number as [json.loads] returns it: its text, and whether it is zero
    (which decides its truth value). *)
Record PyNumber := mkNumber { number_text : string; number_is_zero : bool }.

(** The value of [json.loads]. The members of a [JObject] stand for a Python
    dictionary: their names are distinct and in insertion order. *)
Inductive json :=
  | JNull
  | JBool (b : bool)
  | JNumber (n : PyNumber)
  | JString (s : string)
  | JArray (items : list json)
  | JObject (members : list (string * json)).

(** The truth value of a decoded value in a condition. *)
Definition py_truthy (v : json) : bool :=
  match v with
  | JNull => false
  | JBool b => b
  | JNumber n => negb (number_is_zero n)
  | JString s => negb (bool_decide (s = EmptyString))
  | JArray items => negb (bool_decide (items = []))
  | JObject members => negb (bool_decide (members = []))
  end.

Fixpoint assoc (k : string) (members : list (string * json)) : option json :=
  match members with
  | [] => None
  | (k', v) :: rest => if decide (k = k') then Some v else assoc k rest
  end.

(** ** Exceptions *)

(** The exception classes that the modelled code raises or names in an
    [except] clause. All of them derive from [Exception]; [KeyboardInterrupt]
    and [SystemExit], which do not, are outside the model. *)
Inductive ExcClass :=
  | JSONDecodeError
  | ValueError
  | KeyError
  | TypeError
  | AttributeError
  | FileNotFoundError
  | OSError
  | CalledProcessError
  | EOFError.

Global Instance ExcClass_eq_dec : EqDecision ExcClass.
Proof. solve_decision. Defined.

(** A raised exception: its class, [str(e)], and the [stderr] attribute that a
    [CalledProcessError] carries (empty for the other classes). *)
Record exn := mkExn { exc_class : ExcClass; exc_text : string; exc_stderr : string }.

(** [isinstance(e, cls)] for the class named in an [except] clause:
    [JSONDecodeError] derives from [ValueError] and [FileNotFoundError] from
    [OSError]. *)
Definition isinstance (e : exn) (cls : ExcClass) : bool :=
  match exc_class e, cls with
  | JSONDecodeError, ValueError => true
  | FileNotFoundError, OSError => true
  | c, c' => bool_decide (c = c')
  end.

(** ** The state of a session *)

(** The global [git_context] dictionary. *)
Record GitContext := mkGitContext {
  enabled : bool;
  skip_staging : bool;
  branch : option string
}.

Global Instance GitContext_eq_dec : EqDecision GitContext.
Proof. solve_decision. Defined.

(** Everything the modelled functions read or change: the files by resolved
    path, the two globals, what was printed on the console and the command
    line of every [subprocess.run] call (both oldest first), and the lines the
    user is going to type at the prompts, next one first. *)
Record World := mkWorld {
  files : gmap string string;
  git_context : GitContext;
  conversation_history : list Msg;
  console : list string;
  processes : list (list string);
  keyboard : list string
}.

(** The result of [subprocess.run]: the executable was not found (Python
    raises [FileNotFoundError]), or the process ran to completion. *)
Inductive ProcessResult :=
  | ExecutableNotFound
  | Completed (returncode : Z) (stdout stderr : string).

(** The result of [json.loads]: a value, or [JSONDecodeError] with its text. *)
Inductive DecodeResult :=
  | Decoded (v : json)
  | DecodeError (text : string).

(** The collaborators outside the program: path resolution against the base
    directory, the JSON decoder, what a subprocess does in a given state,
    whether the working directory has a [.git] entry, the working directory,
    the path of a file relative to the working directory (absent when the file
    is outside it), and [str()] of a decoded value. *)
Class Env := mkEnv {
  normalize_path : string → string;
  json_loads : string → DecodeResult;
  run_process : World → list string → ProcessResult;
  git_dir_exists : World → bool;
  cwd : string;
  relative_to_cwd : string → option string;
  py_str : json → string
}.

(** ** Computations that may raise *)

Inductive Outcome (A : Type) :=
  | Return (a : A)
  | Raise (e : exn).
Global Arguments Return {A} a.
Global Arguments Raise {A} e.

Definition M (A : Type) : Type := World → Outcome A * World.

Global Instance M_ret : MRet M := λ A a w, (Return a, w).

Global Instance M_bind : MBind M := λ A B f m w,
  match m w with
  | (Return a, w') => f a w'
  | (Raise e, w') => (Raise e, w')
  end.

Definition raise {A} (cls : ExcClass) (text : string) : M A :=
  λ w, (Raise (mkExn cls text EmptyString), w).

(** An exception that no [except] clause matched goes on. *)
Definition reraise {A} (e : exn) : M A := λ w, (Raise e, w).

(** [try: body  except ...: handler]. [handler e] is [None] when no clause
    matches [e], which then propagates. *)
Definition try_except {A} (body : M A) (handler : exn → option (M A)) : M A :=
  λ w,
    match body w with
    | (Return a, w') => (Return a, w')
    | (Raise e, w') =>
        match handler e with
        | Some h => h w'
        | None => (Raise e, w')
        end
    end.

Definition get_world : M World := λ w, (Return w, w).

(** [console.print(text)] *)
Definition console_print (text : string) : M unit :=
  λ w, (Return (), mkWorld (files w) (git_context w) (conversation_history w)
                     (console w ++ [text]) (processes w) (keyboard w)).

Definition set_git_context (g : GitContext) : M unit :=
  λ w, (Return (), mkWorld (files w) g (conversation_history w) (console w)
                     (processes w) (keyboard w)).

Definition set_conversation_history (h : list Msg) : M unit :=
  λ w, (Return (), mkWorld (files w) (git_context w) h (console w)
                     (processes w) (keyboard w)).

(** [with open(path, "w") as f: f.write(text)] *)
Definition write_file (path text : string) : M unit :=
  λ w, (Return (), mkWorld (<[path := text]> (files w)) (git_context w)
                     (conversation_history w) (console w) (processes w) (keyboard w)).

(** [git_context['enabled'] = b] *)
Definition set_enabled (b : bool) : M unit :=
  w ← get_world;
  set_git_context (mkGitContext b (skip_staging (git_context w)) (branch (git_context w))).

(** [git_context['branch'] = name] *)
Definition set_branch (name : string) : M unit :=
  w ← get_world;
  set_git_context (mkGitContext (enabled (git_context w)) (skip_staging (git_context w))
                     (Some name)).

(** [prompt_session.prompt(...)]: the next line typed; at the end of the
    input the prompt raises [EOFError]. *)
Definition prompt (text : string) : M string :=
  λ w, match keyboard w with
       | [] => (Raise (mkExn EOFError EmptyString EmptyString), w)
       | line :: rest =>
           (Return line, mkWorld (files w) (git_context w) (conversation_history w)
                           (console w) (processes w) rest)
       end.

(** ** Configuration constants *)

Definition MAX_FILE_CONTENT_SIZE_CREATE : Z := 5000000.

(** ** The program *)

Section Program.

Context {E : Env}.

(** The text of a command line inside the message of [CalledProcessError]. *)
Definition argv_repr (argv : list string) : string :=
  "[" +:+ Str.join ", " (map (λ a, "'" +:+ a +:+ "'") argv) +:+ "]".

(** [subprocess.run(argv, ..., check=check)]: the call is recorded; a missing
    executable raises [FileNotFoundError]; with [check=True] a non-zero return
    code raises [CalledProcessError]. *)
Definition subprocess_run (argv : list string) (check : bool) : M (Z * string * string) :=
  λ w,
    let w' := mkWorld (files w) (git_context w) (conversation_history w) (console w)
                (processes w ++ [argv]) (keyboard w) in
    match run_process w argv with
    | ExecutableNotFound =>
        (Raise (mkExn FileNotFoundError
                  ("[Errno 2] No such file or directory: '"
                   +:+ default EmptyString (head argv) +:+ "'") EmptyString),
         w')
    | Completed returncode stdout stderr =>
        if check && negb (bool_decide (returncode = 0%Z))
        then (Raise (mkExn CalledProcessError
                       ("Command '" +:+ argv_repr argv +:+ "' returned non-zero exit status "
                        +:+ pretty returncode +:+ ".") stderr), w')
        else (Return (returncode, stdout, stderr), w')
    end.

(** [read_local_file]: the file at the resolved path, [FileNotFoundError] when
    there is none. *)
Definition read_local_file (file_path : string) : M string :=
  λ w,
    let full_path := normalize_path file_path in
    match files w !! full_path with
    | Some text => (Return text, w)
    | None =>
        (Raise (mkExn FileNotFoundError
                  ("[Errno 2] No such file or directory: '" +:+ full_path +:+ "'")
                  EmptyString), w)
    end.

(** [Path(path).parts] without the root. *)
Definition path_parts (path : string) : list string :=
  filter (λ part, part ≠ EmptyString) (Str.split "/" path).

(** [stage_file] *)
Definition stage_file (file_path_str : string) : M bool :=
  w ← get_world;
  if negb (enabled (git_context w)) || skip_staging (git_context w) then mret false
  else
    try_except
      (match relative_to_cwd file_path_str with
       | None => raise ValueError
                   ("'" +:+ file_path_str +:+ "' is not in the subpath of '" +:+ cwd +:+ "'")
       | Some rel_path =>
           '(returncode, _, stderr) ← subprocess_run ["git"; "add"; rel_path] false;
           if bool_decide (returncode = 0%Z)
           then console_print ("[green dim]✓ Staged " +:+ rel_path +:+ "[/green dim]");;
                mret true
           else console_print ("[yellow]⚠ Failed to stage " +:+ rel_path +:+ ": "
                               +:+ Str.strip stderr +:+ "[/yellow]");;
                mret false
       end)
      (λ e,
         if isinstance e ValueError
         then Some (console_print ("[yellow]⚠ File " +:+ file_path_str +:+ " outside repo ("
                                   +:+ cwd +:+ "), skipping staging[/yellow]");;
                    mret false)
         else Some (console_print ("[red]✗ Error staging " +:+ file_path_str +:+ ": "
                                   +:+ exc_text e +:+ "[/red]");;
                    mret false)).

(** [create_file] *)
Definition create_file (path file_content : string) : M unit :=
  if existsb (Str.startswith "~") (path_parts path)
  then raise ValueError "Home directory references not allowed"
  else
    let normalized_path_str := normalize_path path in
    if bool_decide (MAX_FILE_CONTENT_SIZE_CREATE < Z.of_nat (String.length file_content))%Z
    then raise ValueError
           ("File content exceeds "
            +:+ pretty (MAX_FILE_CONTENT_SIZE_CREATE `div` (1024 * 1024))%Z +:+ "MB size limit")
    else
      write_file normalized_path_str file_content;;
      console_print ("[bold blue]✓[/bold blue] Created/updated file at '[bright_cyan]"
                     +:+ normalized_path_str +:+ "[/bright_cyan]'");;
      w ← get_world;
      if enabled (git_context w) && negb (skip_staging (git_context w))
      then stage_file normalized_path_str;; mret ()
      else mret ().

(** A [Panel] on the console, recorded by its title and its body. *)
Definition Panel (body title : string) : string := title +:+ ": " +:+ body.

(** The two [except] clauses of [apply_diff_edit]; [file_content] is the local
    variable [content] when the exception was raised. *)
Definition apply_diff_edit_except
    (path original_snippet file_content : string) (e : exn) : M unit :=
  if isinstance e FileNotFoundError then
    console_print ("[bold red]✗[/bold red] File not found for diff: '[bright_cyan]"
                   +:+ path +:+ "[/bright_cyan]'")
  else if isinstance e ValueError then
    console_print ("[bold yellow]⚠[/bold yellow] " +:+ exc_text e +:+ " in '[bright_cyan]"
                   +:+ path +:+ "[/bright_cyan]'. No changes.");;
    if Str.contains "Original snippet not found" (exc_text e)
       || Str.contains "Ambiguous edit" (exc_text e)
    then
      console_print (LF +:+ "[bold blue]Expected snippet:[/bold blue]");;
      console_print (Panel original_snippet "Expected");;
      if negb (bool_decide (file_content = EmptyString)) then
        console_print (LF +:+ "[bold blue]Actual content (or relevant part):[/bold blue]");;
        let start_idx :=
          Z.to_nat (0 `max` (Str.find (Str.take 20 original_snippet) file_content - 100)) in
        let end_idx :=
          String.length file_content `min` (start_idx + String.length original_snippet + 200) in
        let display_snip :=
          (if bool_decide (0 < start_idx) then "..." else EmptyString)
          +:+ Str.slice start_idx end_idx file_content
          +:+ (if bool_decide (end_idx < String.length file_content) then "..." else EmptyString) in
        console_print
          (Panel (if bool_decide (display_snip = EmptyString) then file_content else display_snip)
             "Actual")
      else mret ()
    else mret ()
  else reraise e.

(** The [try] block of [apply_diff_edit] after [content] has been read. *)
Definition apply_diff_edit_try
    (normalized_path_str original_snippet new_snippet file_content : string) : M unit :=
  let occurrences := Str.count file_content original_snippet in
  if bool_decide (occurrences = 0) then raise ValueError "Original snippet not found"
  else if bool_decide (1 < occurrences) then
    console_print ("[bold yellow]⚠ Multiple matches (" +:+ pretty occurrences
                   +:+ ") found. Aborting.[/bold yellow]");;
    raise ValueError ("Ambiguous edit: " +:+ pretty occurrences +:+ " matches.")
  else
    let updated_content := Str.replace_first original_snippet new_snippet file_content in
    create_file normalized_path_str updated_content;;
    console_print ("[bold blue]✓[/bold blue] Applied diff edit to '[bright_cyan]"
                   +:+ normalized_path_str +:+ "[/bright_cyan]'").

(** [apply_diff_edit]. The local [content] is [""] until the file has been
    read, so an exception raised by the read reaches the [except] clauses with
    the empty content and a later one with the content read. *)
Definition apply_diff_edit (path original_snippet new_snippet : string) : M unit :=
  let normalized_path_str := normalize_path path in
  λ w,
    match read_local_file normalized_path_str w with
    | (Raise e, w1) => apply_diff_edit_except path original_snippet EmptyString e w1
    | (Return file_content, w1) =>
        match apply_diff_edit_try normalized_path_str original_snippet new_snippet
                file_content w1 with
        | (Raise e, w2) => apply_diff_edit_except path original_snippet file_content e w2
        | (Return tt, w2) => (Return tt, w2)
        end
    end.


(** [validate_tool_calls]: the loop over [enumerate(accumulated_tool_calls)]
    from position [i] on, with the calls kept so far. *)
Fixpoint validate_loop (i : nat) (calls valid_calls : list ToolCall) : M (list ToolCall) :=
  match calls with
  | [] => mret valid_calls
  | tool_call :: rest =>
      if bool_decide (id tool_call = EmptyString) then
        console_print ("[yellow]⚠ Tool call " +:+ pretty i +:+ " missing ID, skipping[/yellow]");;
        validate_loop (S i) rest valid_calls
      else
        let func_name := name (function tool_call) in
        if bool_decide (func_name = EmptyString) then
          console_print ("[yellow]⚠ Tool call " +:+ pretty i
                         +:+ " missing function name, skipping[/yellow]");;
          validate_loop (S i) rest valid_calls
        else
          let func_args := arguments (function tool_call) in
          match (if bool_decide (func_args = EmptyString) then Decoded JNull
                 else json_loads func_args) with
          | DecodeError text =>
              console_print ("[red]✗ Tool call " +:+ pretty i
                             +:+ " has invalid JSON arguments: " +:+ text +:+ "[/red]");;
              console_print ("[red]  Arguments: " +:+ func_args +:+ "[/red]");;
              validate_loop (S i) rest valid_calls
          | Decoded _ => validate_loop (S i) rest (valid_calls ++ [tool_call])
          end
  end.

Definition validate_tool_calls (accumulated_tool_calls : list ToolCall) : M (list ToolCall) :=
  match accumulated_tool_calls with
  | [] => mret []
  | _ =>
      valid_calls ← validate_loop 0 accumulated_tool_calls [];
      (if bool_decide (length valid_calls ≠ length accumulated_tool_calls)
       then console_print ("[yellow]⚠ Kept " +:+ pretty (length valid_calls) +:+ "/"
                           +:+ pretty (length accumulated_tool_calls)
                           +:+ " tool calls[/yellow]")
       else mret ());;
      mret valid_calls
  end.

(** [ensure_file_in_context] *)
Definition ensure_file_in_context (file_path : string) : M bool :=
  try_except
    (let normalized_path := normalize_path file_path in
     file_content ← read_local_file normalized_path;
     w ← get_world;
     (if negb (existsb (is_context_of normalized_path) (conversation_history w))
      then set_conversation_history
             (add_file_context_smartly (conversation_history w) normalized_path file_content
                DEFAULT_MAX_CONTEXT_FILES)
      else mret ());;
     mret true)
    (λ e,
       if isinstance e OSError || isinstance e ValueError
       then Some (console_print ("[red]✗ Error reading file for context '" +:+ file_path
                                 +:+ "': " +:+ exc_text e +:+ "[/red]");;
                  mret false)
       else None).


(** ** Git helpers *)

(** The key of [Path(".gitignore")] in the file map. *)
Definition gitignore_path : string := cwd +:+ "/.gitignore".

Definition gitignore_exists (w : World) : bool :=
  bool_decide (is_Some (files w !! gitignore_path)).

(** The answer to a yes/no prompt: [.strip().lower() in ["y", "yes"]]. *)
Definition says_yes (answer : string) : bool :=
  let a := Str.lower (Str.strip answer) in
  bool_decide (a = "y") || bool_decide (a = "yes").

(** The clause [except (subprocess.CalledProcessError, FileNotFoundError) as e]
    shared by the git functions: a missing executable switches git off, then
    [result e] is returned. *)
Definition git_except {A} (result : exn → M A) (e : exn) : option (M A) :=
  if isinstance e CalledProcessError || isinstance e FileNotFoundError
  then Some ((if isinstance e FileNotFoundError then set_enabled false else mret ());;
             result e)
  else None.

(** The same clause in the functions that print a message and return a fixed
    value. *)
Definition git_except_print {A} (message : exn → string) (a : A) (e : exn) : option (M A) :=
  if isinstance e CalledProcessError || isinstance e FileNotFoundError
  then Some (console_print (message e);;
             (if isinstance e FileNotFoundError then set_enabled false else mret ());;
             mret a)
  else None.

(** One line of [git status --porcelain]: [(line[:2], line[3:])]. *)
Definition porcelain_entry (line : string) : string * string :=
  (Str.take 2 line, Str.drop 3 line).

(** [get_git_status_porcelain] *)
Definition get_git_status_porcelain : M (bool * list (string * string)) :=
  w ← get_world;
  if negb (enabled (git_context w)) then mret (false, [])
  else
    try_except
      ('(_, stdout, _) ← subprocess_run ["git"; "status"; "--porcelain"] true;
       if bool_decide (Str.strip stdout = EmptyString) then mret (false, [])
       else
         let changed_files :=
           map porcelain_entry
             (filter (λ line, line ≠ EmptyString) (Str.split "010" (Str.strip stdout))) in
         mret (true, changed_files))
      (λ e,
         if isinstance e CalledProcessError
         then Some (console_print ("[red]Error getting Git status: " +:+ exc_stderr e +:+ "[/red]");;
                    mret (false, []))
         else if isinstance e FileNotFoundError
         then Some (console_print "[red]Git not found.[/red]";;
                    set_enabled false;;
                    mret (false, []))
         else None).

Definition gitignore_patterns : list string :=
  ["# Python"; "__pycache__/"; "*.pyc"; "*.pyo"; "*.pyd"; ".Python"; "env/"; "venv/";
   ".venv"; "ENV/"; "*.egg-info/"; "dist/"; "build/"; ".pytest_cache/"; ".mypy_cache/";
   ".coverage"; "htmlcov/"; ""; "# Env"; ".env"; ".env*.local"; "!.env.example"; "";
   "# IDE"; ".vscode/"; ".idea/"; "*.swp"; "*.swo"; ".DS_Store"; ""; "# Logs"; "*.log";
   "logs/"; ""; "# Temp"; "*.tmp"; "*.temp"; "*.bak"; "*.cache"; "Thumbs.db";
   "desktop.ini"; ""; "# Node"; "node_modules/"; "npm-debug.log*"; "yarn-debug.log*";
   "pnpm-lock.yaml"; "package-lock.json"; ""; "# Local"; "*.session"; "*.checkpoint"].

(** The [while True] loop of [create_gitignore] over the lines still to be
    typed: the patterns entered before the first blank line, the lines left,
    and whether the input ended before a blank line came. *)
Fixpoint custom_patterns (lines : list string) : list string * list string * bool :=
  match lines with
  | [] => ([], [], true)
  | line :: rest =>
      let pattern := Str.strip line in
      if bool_decide (pattern = EmptyString) then ([], rest, false)
      else let '(ps, remaining, eof) := custom_patterns rest in (pattern :: ps, remaining, eof)
  end.

Definition read_custom_patterns : M (list string) :=
  λ w,
    let '(ps, remaining, eof) := custom_patterns (keyboard w) in
    let w' := mkWorld (files w) (git_context w) (conversation_history w) (console w)
                (processes w) remaining in
    if eof then (Raise (mkExn EOFError EmptyString EmptyString), w') else (Return ps, w').

(** [create_gitignore]. Writing a file does not fail in this model, so the
    clause [except OSError] around the write is never entered. *)
Definition create_gitignore : M unit :=
  w ← get_world;
  if gitignore_exists w then console_print "[yellow]⚠ .gitignore exists, skipping.[/yellow]"
  else
    console_print (LF +:+ "[bold bright_blue]📝 Creating .gitignore[/bold bright_blue]");;
    answer ← prompt "🔵 Add custom patterns? (y/n, default n): ";
    patterns ←
      (if says_yes answer then
         console_print "[dim]Enter patterns (empty line to finish):[/dim]";;
         custom ← read_custom_patterns;
         mret (gitignore_patterns ++ [LF +:+ "# Custom"] ++ custom)
       else mret gitignore_patterns);
    write_file gitignore_path (Str.join LF patterns +:+ LF);;
    console_print ("[green]✓ Created .gitignore (" +:+ pretty (length patterns)
                   +:+ " patterns)[/green]");;
    w' ← get_world;
    if enabled (git_context w') then stage_file ".gitignore";; mret () else mret ().


(** ** Git commands of the user *)

(** [user_commit_changes] *)
Definition user_commit_changes (message : string) : M bool :=
  w ← get_world;
  if negb (enabled (git_context w))
  then console_print "[yellow]Git not enabled.[/yellow]";; mret false
  else
    try_except
      ('(add_rc, _, add_err) ← subprocess_run ["git"; "add"; "-A"] false;
       (if negb (bool_decide (add_rc = 0%Z))
        then console_print ("[yellow]⚠ Failed to stage all: " +:+ Str.strip add_err
                            +:+ "[/yellow]")
        else mret ());;
       '(staged_rc, _, _) ← subprocess_run ["git"; "diff"; "--staged"; "--quiet"] false;
       if bool_decide (staged_rc = 0%Z)
       then console_print "[yellow]No changes staged for commit.[/yellow]";; mret false
       else
         '(commit_rc, _, commit_err) ← subprocess_run ["git"; "commit"; "-m"; message] false;
         if bool_decide (commit_rc = 0%Z) then
           console_print ("[green]✓ Committed: " +:+ DQUOTE +:+ message +:+ DQUOTE
                          +:+ "[/green]");;
           '(_, log_out, _) ← subprocess_run ["git"; "log"; "--oneline"; "-1"] false;
           let log_info := Str.strip log_out in
           (if negb (bool_decide (log_info = EmptyString))
            then console_print ("[dim]Commit: " +:+ log_info +:+ "[/dim]")
            else mret ());;
           mret true
         else
           console_print ("[red]✗ Commit failed: " +:+ Str.strip commit_err +:+ "[/red]");;
           mret false)
      (git_except_print (λ e, "[red]✗ Git error: " +:+ exc_text e +:+ "[/red]") false).

(** [initialize_git_repo_cmd] *)
Definition initialize_git_repo_cmd : M bool :=
  w ← get_world;
  if git_dir_exists w then
    console_print "[yellow]Git repo already exists.[/yellow]";;
    set_enabled true;;
    mret true
  else
    try_except
      (subprocess_run ["git"; "init"] true;;
       set_enabled true;;
       '(rc, stdout, _) ← subprocess_run ["git"; "rev-parse"; "--abbrev-ref"; "HEAD"] false;
       let branch_name := if bool_decide (rc = 0%Z) then Str.strip stdout else "main" in
       set_branch branch_name;;
       console_print ("[green]✓ Initialized Git repo in " +:+ cwd +:+ "/.git/ (branch: "
                      +:+ branch_name +:+ ")[/green]");;
       w1 ← get_world;
       (if negb (gitignore_exists w1) then
          answer ← prompt "🔵 No .gitignore. Create one? (y/n, default y): ";
          if says_yes answer then create_gitignore
          else
            w2 ← get_world;
            if enabled (git_context w2) && gitignore_exists w2
            then stage_file ".gitignore";; mret () else mret ()
        else
          if enabled (git_context w1) && gitignore_exists w1
          then stage_file ".gitignore";; mret () else mret ());;
       answer ← prompt "🔵 Initial commit? (y/n, default n): ";
       (if says_yes answer then user_commit_changes "Initial commit";; mret () else mret ());;
       mret true)
      (git_except_print (λ e, "[red]✗ Failed to init Git: " +:+ exc_text e +:+ "[/red]") false).

(** [create_git_branch_cmd] *)
Definition create_git_branch_cmd (branch_name : string) : M bool :=
  w ← get_world;
  if negb (enabled (git_context w))
  then console_print "[yellow]Git not enabled.[/yellow]";; mret true
  else if bool_decide (branch_name = EmptyString)
  then console_print "[yellow]Branch name empty.[/yellow]";; mret true
  else
    try_except
      ('(_, existing, _) ← subprocess_run ["git"; "branch"; "--list"; branch_name] false;
       if negb (bool_decide (Str.strip existing = EmptyString)) then
         console_print ("[yellow]Branch '" +:+ branch_name +:+ "' exists.[/yellow]");;
         '(_, current, _) ← subprocess_run ["git"; "branch"; "--show-current"] false;
         (if negb (bool_decide (Str.strip current = branch_name)) then
            answer ← prompt ("🔵 Switch to '" +:+ branch_name +:+ "'? (y/n, default y): ");
            if says_yes answer then
              subprocess_run ["git"; "checkout"; branch_name] true;;
              set_branch branch_name;;
              console_print ("[green]✓ Switched to branch '" +:+ branch_name +:+ "'[/green]")
            else mret ()
          else mret ());;
         mret true
       else
         subprocess_run ["git"; "checkout"; "-b"; branch_name] true;;
         set_branch branch_name;;
         console_print ("[green]✓ Created & switched to new branch '" +:+ branch_name
                        +:+ "'[/green]");;
         mret true)
      (git_except_print (λ e, "[red]✗ Branch op failed: " +:+ exc_text e +:+ "[/red]") false).

(** The code run before the main loop: git is switched on when the working
    directory has a [.git] directory and the current branch is looked up. *)
Definition startup : M unit :=
  w ← get_world;
  if git_dir_exists w then
    set_enabled true;;
    try_except
      ('(rc, stdout, _) ← subprocess_run ["git"; "branch"; "--show-current"] false;
       if bool_decide (rc = 0%Z) && negb (bool_decide (Str.strip stdout = EmptyString))
       then set_branch (Str.strip stdout)
       else
         '(rc', stdout', _) ← subprocess_run ["git"; "config"; "init.defaultBranch"] false;
         set_branch (if bool_decide (rc' = 0%Z)
                        && negb (bool_decide (Str.strip stdout' = EmptyString))
                     then Str.strip stdout' else "main"))
      (λ e,
         if isinstance e FileNotFoundError
         then Some (console_print "[yellow]Git not found. Git features disabled.[/yellow]";;
                    set_enabled false)
         else Some (console_print ("[yellow]Could not get Git branch: " +:+ exc_text e
                                   +:+ ".[/yellow]")))
  else mret ().


(** ** Decoded values used as arguments *)

(** [v[key]] *)
Definition subscript (v : json) (key : string) : M json :=
  match v with
  | JObject members =>
      match assoc key members with
      | Some x => mret x
      | None => raise KeyError ("'" +:+ key +:+ "'")
      end
  | JArray _ => raise TypeError "list indices must be integers or slices, not str"
  | JString _ => raise TypeError "string indices must be integers, not 'str'"
  | _ => raise TypeError "object is not subscriptable"
  end.

(** [v.get(key, default)] *)
Definition get_or (v : json) (key : string) (dflt : json) : M json :=
  match v with
  | JObject members => mret (default dflt (assoc key members))
  | _ => raise AttributeError "object has no attribute 'get'"
  end.

(** A value used where a path or a command-line word is required. *)
Definition as_str (v : json) : M string :=
  match v with
  | JString s => mret s
  | _ => raise TypeError "expected str, bytes or os.PathLike object"
  end.

(** [for x in v]: the items of a list, the characters of a string, the keys
    of a dictionary. *)
Definition iterate (v : json) : M (list json) :=
  match v with
  | JArray items => mret items
  | JString s => mret (map JString (Str.chars s))
  | JObject members => mret (map (λ kv, JString kv.1) members)
  | _ => raise TypeError "object is not iterable"
  end.

(** A decoded value inside an f-string: a string stands for itself, any other
    value is rendered by [str()]. *)
Definition format_value (v : json) : string :=
  match v with
  | JString s => s
  | _ => py_str v
  end.

(** [Path(p).name] *)
Definition path_name (p : string) : string := default EmptyString (last (path_parts p)).

(** ** The git operations offered to the model *)

(** [llm_git_init] *)
Definition llm_git_init : M string :=
  w ← get_world;
  if git_dir_exists w then set_enabled true;; mret "Git repository already exists."
  else
    try_except
      (subprocess_run ["git"; "init"] true;;
       set_enabled true;;
       '(rc, stdout, _) ← subprocess_run ["git"; "rev-parse"; "--abbrev-ref"; "HEAD"] false;
       let branch_name := if bool_decide (rc = 0%Z) then Str.strip stdout else "main" in
       set_branch branch_name;;
       w1 ← get_world;
       (if negb (gitignore_exists w1) then create_gitignore
        else if enabled (git_context w1) then stage_file ".gitignore";; mret ()
        else mret ());;
       mret ("Git repository initialized successfully in " +:+ cwd +:+ "/.git/ (branch: "
             +:+ branch_name +:+ ")."))
      (git_except (λ e, mret ("Failed to initialize Git repository: " +:+ exc_text e))).

(** The body of the loop of [llm_git_add] for one path. *)
Definition llm_git_add_one (fp_str : json) (lists : list string * list string)
  : M (list string * list string) :=
  let '(staged_ok, failed_stage) := lists in
  try_except
    (fp ← as_str fp_str;
     let norm_fp := normalize_path fp in
     ok ← stage_file norm_fp;
     if (ok : bool) then mret (staged_ok ++ [norm_fp], failed_stage)
     else mret (staged_ok, failed_stage ++ [norm_fp]))
    (λ e,
       if isinstance e ValueError
       then Some (mret (staged_ok, failed_stage
                          ++ [format_value fp_str +:+ " (path error: " +:+ exc_text e +:+ ")"]))
       else Some (mret (staged_ok, failed_stage
                          ++ [format_value fp_str +:+ " (error: " +:+ exc_text e +:+ ")"]))).

Fixpoint llm_git_add_loop (paths : list json) (lists : list string * list string)
  : M (list string * list string) :=
  match paths with
  | [] => mret lists
  | fp_str :: rest => lists' ← llm_git_add_one fp_str lists; llm_git_add_loop rest lists'
  end.

(** [llm_git_add] *)
Definition llm_git_add (file_paths : json) : M string :=
  w ← get_world;
  if negb (enabled (git_context w)) then mret "Git not initialized."
  else if negb (py_truthy file_paths) then mret "No file paths to stage."
  else
    paths ← iterate file_paths;
    '(staged_ok, failed_stage) ← llm_git_add_loop paths (([] : list string), ([] : list string));
    let res :=
      (if bool_decide (staged_ok ≠ [])
       then ["Staged: " +:+ Str.join ", " (map path_name staged_ok)] else [])
      ++ (if bool_decide (failed_stage ≠ [])
          then ["Failed to stage: " +:+ Str.join ", " (map path_name failed_stage)] else []) in
    mret (if bool_decide (res ≠ []) then Str.join ". " res +:+ "."
          else "No files staged. Check paths.").

(** [llm_git_commit] *)
Definition llm_git_commit (message : json) : M string :=
  w ← get_world;
  if negb (enabled (git_context w)) then mret "Git not initialized."
  else if negb (py_truthy message) then mret "Commit message empty."
  else
    try_except
      ('(staged_rc, _, _) ← subprocess_run ["git"; "diff"; "--staged"; "--quiet"] false;
       if bool_decide (staged_rc = 0%Z) then mret "No changes staged. Use git_add first."
       else
         msg ← as_str message;
         '(rc, _, stderr) ← subprocess_run ["git"; "commit"; "-m"; msg] false;
         if bool_decide (rc = 0%Z) then
           '(_, info, _) ← subprocess_run ["git"; "log"; "-1"; "--pretty=%h %s"] false;
           mret ("Committed. Commit: " +:+ Str.strip info)
         else mret ("Failed to commit: " +:+ Str.strip stderr))
      (λ e,
         match git_except (λ e, mret ("Git commit error: " +:+ exc_text e)) e with
         | Some h => Some h
         | None => Some (console_print ("Traceback: " +:+ exc_text e);;
                         mret ("Unexpected commit error: " +:+ exc_text e))
         end).

(** [llm_git_create_branch] *)
Definition llm_git_create_branch (branch_name : json) : M string :=
  w ← get_world;
  if negb (enabled (git_context w)) then mret "Git not initialized."
  else
    bn ← match branch_name with
         | JString s => mret (Str.strip s)
         | _ => raise AttributeError "object has no attribute 'strip'"
         end;
    if bool_decide (bn = EmptyString) then mret "Branch name empty."
    else
      try_except
        ('(exist_rc, _, _) ←
           subprocess_run ["git"; "rev-parse"; "--verify"; "refs/heads/" +:+ bn] false;
         if bool_decide (exist_rc = 0%Z) then
           '(_, current, _) ← subprocess_run ["git"; "branch"; "--show-current"] false;
           if bool_decide (Str.strip current = bn) then mret ("Already on branch '" +:+ bn +:+ "'.")
           else
             subprocess_run ["git"; "checkout"; bn] true;;
             set_branch bn;;
             mret ("Branch '" +:+ bn +:+ "' exists. Switched to it.")
         else
           subprocess_run ["git"; "checkout"; "-b"; bn] true;;
           set_branch bn;;
           mret ("Created & switched to new branch '" +:+ bn +:+ "'."))
        (git_except (λ e, mret ("Branch op failed for '" +:+ bn +:+ "': " +:+ exc_text e))).


(** The three groups of [llm_git_status]: staged, unstaged, untracked. *)
Fixpoint group_changes (changed : list (string * string))
  : list string * list string * list string :=
  match changed with
  | [] => ([], [], [])
  | (code, filename) :: rest =>
      let '(staged, unstaged, untracked) := group_changes rest in
      if bool_decide (code = "??") then (staged, unstaged, filename :: untracked)
      else if Str.startswith " " code
      then (staged, (Str.strip code +:+ " " +:+ filename) :: unstaged, untracked)
      else ((Str.strip code +:+ " " +:+ filename) :: staged, unstaged, untracked)
  end.

(** [llm_git_status] *)
Definition llm_git_status : M string :=
  w ← get_world;
  if negb (enabled (git_context w)) then mret "Git not initialized."
  else
    try_except
      ('(rc, stdout, _) ← subprocess_run ["git"; "branch"; "--show-current"] false;
       let branch_name :=
         if bool_decide (rc = 0%Z) && negb (bool_decide (Str.strip stdout = EmptyString))
         then Str.strip stdout else "detached HEAD" in
       '(has_changes, changed) ← get_git_status_porcelain;
       if negb has_changes
       then mret ("On branch '" +:+ branch_name +:+ "'. Working tree clean.")
       else
         let '(staged, unstaged, untracked) := group_changes changed in
         let indent := map (λ s, "  " +:+ s) in
         let lines :=
           ["On branch '" +:+ branch_name +:+ "'."]
           ++ (if bool_decide (staged ≠ [])
               then (LF +:+ "Changes to be committed:") :: indent staged else [])
           ++ (if bool_decide (unstaged ≠ [])
               then (LF +:+ "Changes not staged for commit:") :: indent unstaged else [])
           ++ (if bool_decide (untracked ≠ [])
               then (LF +:+ "Untracked files:") :: indent untracked else []) in
         mret (Str.join LF lines))
      (git_except (λ e, mret ("Git status error: " +:+ exc_text e))).

(** The descriptions of [show_git_status_cmd]. *)
Definition s_map : list (string * string) :=
  [(" M", "Mod (unstaged)"); ("MM", "Mod (staged&un)"); (" A", "Add (unstaged)");
   ("AM", "Add (staged&mod)"); ("AD", "Add (staged&del)"); (" D", "Del (unstaged)");
   ("??", "Untracked"); ("M ", "Mod (staged)"); ("A ", "Add (staged)");
   ("D ", "Del (staged)"); ("R ", "Ren (staged)"); ("C ", "Cop (staged)");
   ("U ", "Unmerged")].

Definition status_row (entry : string * string) : string :=
  let '(code, filename) := entry in
  let desc := default "Unknown" (snd <$> find (λ kv, bool_decide (kv.1 = code)) s_map) in
  code +:+ " | " +:+ filename +:+ " | " +:+ desc.

(** [show_git_status_cmd]; the table is recorded as its rows. The lookup of
    the branch is outside any [try], so a missing executable raises. *)
Definition show_git_status_cmd : M bool :=
  w ← get_world;
  if negb (enabled (git_context w))
  then console_print "[yellow]Git not enabled.[/yellow]";; mret true
  else
    '(has_changes, changed) ← get_git_status_porcelain;
    '(rc, stdout, _) ← subprocess_run ["git"; "branch"; "--show-current"] false;
    let branch_msg :=
      if bool_decide (rc = 0%Z) && negb (bool_decide (Str.strip stdout = EmptyString))
      then "On branch " +:+ Str.strip stdout else "Not on any branch?" in
    console_print (Panel branch_msg "Git Status");;
    if negb has_changes then console_print "[green]Working tree clean.[/green]";; mret true
    else
      let untracked := existsb (λ e : string * string, bool_decide (e.1 = "??")) changed in
      let unstaged :=
        existsb (λ e : string * string,
                   negb (bool_decide (e.1 = "??")) && Str.startswith " " e.1) changed in
      let staged :=
        existsb (λ e : string * string,
                   negb (bool_decide (e.1 = "??")) && negb (Str.startswith " " e.1)) changed in
      console_print (Str.join LF (map status_row changed));;
      (if negb staged && (unstaged || untracked)
       then console_print (LF +:+ "[yellow]No changes added to commit.[/yellow]")
       else mret ());;
      (if staged then console_print (LF +:+ "[green]Changes to be committed.[/green]")
       else mret ());;
      (if unstaged then console_print "[yellow]Changes not staged for commit.[/yellow]"
       else mret ());;
      (if untracked then console_print "[cyan]Untracked files present.[/cyan]"
       else mret ());;
      mret true.


(** ** The tool dispatcher *)

(** [create_file] called with decoded values. A path that is not a string
    fails in [Path(path)]. Content that is no string fails in [len(content)],
    or, for a list or a dictionary, in [f.write(content)] after the file has
    been opened for writing and so emptied. *)
Definition create_file_json (path file_content : json) : M unit :=
  p ← as_str path;
  match file_content with
  | JString c => create_file p c
  | JArray _ | JObject _ =>
      if existsb (Str.startswith "~") (path_parts p)
      then raise ValueError "Home directory references not allowed"
      else write_file (normalize_path p) EmptyString;;
           raise TypeError "write() argument must be str"
  | _ =>
      if existsb (Str.startswith "~") (path_parts p)
      then raise ValueError "Home directory references not allowed"
      else raise TypeError "object has no len()"
  end.

(** [apply_diff_edit] called with decoded snippets. A snippet that is not a
    string fails in [content.count] or in [content.replace], which no clause
    of [apply_diff_edit] catches. *)
Definition apply_diff_edit_json (path : string) (original_snippet new_snippet : json) : M unit :=
  match original_snippet, new_snippet with
  | JString o, JString n => apply_diff_edit path o n
  | JString o, _ =>
      λ w,
        match read_local_file (normalize_path path) w with
        | (Raise e, w1) => apply_diff_edit_except path o EmptyString e w1
        | (Return file_content, w1) =>
            if bool_decide (Str.count file_content o = 1)
            then raise TypeError "replace() argument 2 must be str" w1
            else
              match apply_diff_edit_try (normalize_path path) o EmptyString file_content w1 with
              | (Raise e, w2) => apply_diff_edit_except path o file_content e w2
              | (Return tt, w2) => (Return tt, w2)
              end
        end
  | _, _ =>
      try_except
        (read_local_file (normalize_path path);;
         raise TypeError "must be str")
        (λ e, if isinstance e FileNotFoundError
              then Some (apply_diff_edit_except path EmptyString EmptyString e)
              else None)
  end.

(** The loop of [read_multiple_files]. *)
Fixpoint read_files_loop (paths : list json) (results : list string) : M (list string) :=
  match paths with
  | [] => mret results
  | fp_json :: rest =>
      fp ← as_str fp_json;
      r ← try_except
            (let norm_path := normalize_path fp in
             file_content ← read_local_file norm_path;
             mret ("Content of '" +:+ norm_path +:+ "':" +:+ LF +:+ LF +:+ file_content))
            (λ e, if isinstance e OSError || isinstance e ValueError
                  then Some (mret ("Error reading '" +:+ fp +:+ "': " +:+ exc_text e))
                  else None);
      read_files_loop rest (results ++ [r])
  end.

(** The loop of [create_multiple_files]. *)
Fixpoint create_files_loop (infos : list json) (lists : list string * list string)
  : M (list string * list string) :=
  match infos with
  | [] => mret lists
  | f_info :: rest =>
      let '(created, errors) := lists in
      lists' ←
        try_except
          (p ← subscript f_info "path";
           c ← subscript f_info "content";
           create_file_json p c;;
           mret (created ++ [format_value p], errors))
          (λ e, Some (p ← get_or f_info "path" (JString "?path");
                      mret (created, errors ++ ["Error creating " +:+ format_value p +:+ ": "
                                                +:+ exc_text e])));
      create_files_loop rest lists'
  end.

Definition FILE_SEP : string :=
  LF +:+ LF +:+ "==================== FILE SEP ====================".

(** The branches of [execute_function_call_dict] after the arguments have been
    decoded. *)
Definition dispatch (func_name : string) (args : json) : M string :=
  if bool_decide (func_name = "read_file") then
    fp ← subscript args "file_path" ≫= as_str;
    let norm_path := normalize_path fp in
    file_content ← read_local_file norm_path;
    mret ("Content of file '" +:+ norm_path +:+ "':" +:+ LF +:+ LF +:+ file_content)
  else if bool_decide (func_name = "read_multiple_files") then
    paths ← subscript args "file_paths" ≫= iterate;
    results ← read_files_loop paths [];
    mret (FILE_SEP +:+ Str.join (LF +:+ LF) results)
  else if bool_decide (func_name = "create_file") then
    p ← subscript args "file_path";
    c ← subscript args "content";
    create_file_json p c;;
    mret ("File '" +:+ format_value p +:+ "' created/updated.")
  else if bool_decide (func_name = "create_multiple_files") then
    infos ← subscript args "files" ≫= iterate;
    '(created, errors) ← create_files_loop infos (([] : list string), ([] : list string));
    let res_parts :=
      (if bool_decide (created ≠ [])
       then ["Created/updated " +:+ pretty (length created) +:+ " files: "
             +:+ Str.join ", " created] else [])
      ++ (if bool_decide (errors ≠ []) then ["Errors: " +:+ Str.join "; " errors] else []) in
    mret (if bool_decide (res_parts ≠ []) then Str.join ". " res_parts
          else "No files processed.")
  else if bool_decide (func_name = "edit_file") then
    fp_json ← subscript args "file_path";
    fp ← as_str fp_json;
    ok ← ensure_file_in_context fp;
    if negb ok then mret ("Error: Could not read '" +:+ fp +:+ "' for editing.")
    else
      try_except
        (o ← subscript args "original_snippet";
         n ← subscript args "new_snippet";
         apply_diff_edit_json fp o n;;
         mret ("Edit attempt on '" +:+ fp +:+ "'. Check console."))
        (λ e, Some (mret ("Error during edit_file call for '" +:+ fp +:+ "': "
                          +:+ exc_text e +:+ ".")))
  else if bool_decide (func_name = "git_init") then llm_git_init
  else if bool_decide (func_name = "git_add") then
    get_or args "file_paths" (JArray []) ≫= llm_git_add
  else if bool_decide (func_name = "git_commit") then
    get_or args "message" (JString "Auto commit") ≫= llm_git_commit
  else if bool_decide (func_name = "git_create_branch") then
    get_or args "branch_name" (JString EmptyString) ≫= llm_git_create_branch
  else if bool_decide (func_name = "git_status") then llm_git_status
  else mret ("Unknown LLM function: " +:+ func_name).


(** [execute_function_call_dict] *)
Definition execute_function_call_dict (tool_call_dict : ToolCall) : M string :=
  let func_name := name (function tool_call_dict) in
  let func_args := arguments (function tool_call_dict) in
  try_except
    (match json_loads func_args with
     | DecodeError text => raise JSONDecodeError text
     | Decoded args => dispatch func_name args
     end)
    (λ e,
       if isinstance e JSONDecodeError then
         Some (console_print ("[red]JSON Decode Error for " +:+ func_name +:+ ": "
                              +:+ exc_text e +:+ LF +:+ "Args: " +:+ func_args +:+ "[/red]");;
               mret ("Error: Invalid JSON args for " +:+ func_name +:+ "."))
       else if isinstance e KeyError then
         Some (console_print ("[red]KeyError in " +:+ func_name +:+ ": Missing key "
                              +:+ exc_text e +:+ "[/red]");;
               mret ("Error: Missing param for " +:+ func_name +:+ " (KeyError: "
                     +:+ exc_text e +:+ ")."))
       else
         Some (console_print ("[red]Unexpected Error in LLM func '" +:+ func_name
                              +:+ "':[/red]");;
               console_print ("Traceback: " +:+ exc_text e);;
               mret ("Unexpected error in " +:+ func_name +:+ ": " +:+ exc_text e))).


(** ** One turn of the main loop *)

(** [chunk.choices[0].delta] *)
Record ChoiceDelta := mkDelta {
  delta_content : option string;
  delta_tool_calls : option (list ToolCallChunk)
}.

(** The [for chunk in response_stream] loop, from the text and the working
    list built so far. *)
Fixpoint consume_stream (stream : list ChoiceDelta)
    (full_response_content : string) (accumulated_tool_calls : list ToolCall)
  : M (string * list ToolCall) :=
  match stream with
  | [] => mret (full_response_content, accumulated_tool_calls)
  | delta :: rest =>
      full' ← match truthy (delta_content delta) with
              | Some content_part =>
                  console_print content_part;;
                  mret (full_response_content +:+ content_part)
              | None => mret full_response_content
              end;
      let acc' :=
        match delta_tool_calls delta with
        | Some chunks => foldl accumulate_chunk accumulated_tool_calls chunks
        | None => accumulated_tool_calls
        end in
      consume_stream rest full' acc'
  end.

Definition append_message (m : Msg) : M unit :=
  w ← get_world;
  set_conversation_history (conversation_history w ++ [m]).

(** The loop [for tool_call_to_exec in valid_tool_calls]. *)
Fixpoint execute_tool_calls (valid_tool_calls : list ToolCall) : M unit :=
  match valid_tool_calls with
  | [] => mret ()
  | tool_call_to_exec :: rest =>
      let fn := function tool_call_to_exec in
      console_print (Panel ("[bold blue]Calling:[/bold blue] " +:+ name fn +:+ LF
                            +:+ "[bold blue]Args:[/bold blue] " +:+ arguments fn)
                       "🛠️ Function Call");;
      tool_output ← execute_function_call_dict tool_call_to_exec;
      console_print (Panel tool_output ("↪️ Output of " +:+ name fn));;
      append_message (mkMsg tool tool_output None (Some (id tool_call_to_exec))
                        (Some (name fn)));;
      execute_tool_calls rest
  end.

(** The body of the main loop for an input that is no command, given the
    stream with which the model answers. *)
Definition turn (user_input : string) (response_stream : list ChoiceDelta) : M unit :=
  append_message (user_msg user_input);;
  '(full_response_content, accumulated_tool_calls) ←
    consume_stream response_stream EmptyString [];
  console_print EmptyString;;
  valid_tool_calls ← validate_tool_calls accumulated_tool_calls;
  append_message
    (mkMsg assistant full_response_content
       (if bool_decide (valid_tool_calls ≠ []) then Some valid_tool_calls else None)
       None None);;
  execute_tool_calls valid_tool_calls;;
  w ← get_world;
  set_conversation_history
    (smart_truncate_history (conversation_history w) MAX_HISTORY_MESSAGES).

End Program.

(** ** A concrete environment for the examples *)

(** The texts that the example decoder knows; any other text is rejected, as
    is the empty text, which [json.loads] rejects too. *)
Definition quoted (s : string) : string := DQUOTE +:+ s +:+ DQUOTE.

Definition example_json_texts : list (string * json) :=
  [("{}", JObject []);
   ("{" +:+ quoted "message" +:+ ": " +:+ quoted "fix" +:+ "}",
    JObject [("message", JString "fix")]);
   ("{" +:+ quoted "file_path" +:+ ": " +:+ quoted "notes.txt" +:+ "}",
    JObject [("file_path", JString "notes.txt")])].

Definition example_json_loads (s : string) : DecodeResult :=
  match snd <$> find (λ kv : string * json, bool_decide (kv.1 = s)) example_json_texts with
  | Some v => Decoded v
  | None => DecodeError "Expecting value: line 1 column 1 (char 0)"
  end.

(** Paths are absolute and resolved already, the working directory is
    [/repo], and [git] behaves as [run] says. *)
Definition example_env (run : World → list string → ProcessResult) (git_dir : bool) : Env :=
  {| normalize_path := λ p, p;
     json_loads := example_json_loads;
     run_process := run;
     git_dir_exists := λ _, git_dir;
     cwd := "/repo";
     relative_to_cwd := λ p, if Str.startswith "/repo/" p then Some (Str.drop 6 p)
                             else if Str.startswith "/" p then None else Some p;
     py_str := λ _, "<value>" |}.

(** No [git] executable on the machine. *)
Definition git_missing : World → list string → ProcessResult := λ _ _, ExecutableNotFound.


Definition persona : Msg := system_msg "You are an elite software engineer".

(** A session at its start with the given files. *)
Definition initial_world (fs : gmap string string) : World :=
  mkWorld fs (mkGitContext false false None) [persona] [] [] [].

(** ** Reports on the console *)


(** ** Validity of an assembled tool call (the statement side of validation) *)

Section Validity.

Context {E : Env}.






End Validity.

(** ** Steps of a session that may touch [git_context] *)

Section Steps.

Context {E : Env}.

(** The modelled entry points after start-up: the file helpers, the git
    commands of the user, the git operations of the model, and the
    dispatcher. *)
Inductive Step :=
  | Stage_file (file_path : string)
  | Create_file (path file_content : string)
  | Apply_diff_edit (path original_snippet new_snippet : string)
  | Ensure_file_in_context (file_path : string)
  | Get_git_status_porcelain
  | User_commit_changes (message : string)
  | Initialize_git_repo_cmd
  | Create_git_branch_cmd (branch_name : string)
  | Show_git_status_cmd
  | Llm_git_init
  | Llm_git_add (file_paths : json)
  | Llm_git_commit (message : json)
  | Llm_git_create_branch (branch_name : json)
  | Llm_git_status
  | Execute_function_call_dict (tool_call_dict : ToolCall).

Definition discard {A} (m : M A) : M unit := m ;; mret ().

Definition run_step (s : Step) : M unit :=
  match s with
  | Stage_file p => discard (stage_file p)
  | Create_file p c => create_file p c
  | Apply_diff_edit p o n => apply_diff_edit p o n
  | Ensure_file_in_context p => discard (ensure_file_in_context p)
  | Get_git_status_porcelain => discard get_git_status_porcelain
  | User_commit_changes m => discard (user_commit_changes m)
  | Initialize_git_repo_cmd => discard initialize_git_repo_cmd
  | Create_git_branch_cmd n => discard (create_git_branch_cmd n)
  | Show_git_status_cmd => discard show_git_status_cmd
  | Llm_git_init => discard llm_git_init
  | Llm_git_add v => discard (llm_git_add v)
  | Llm_git_commit v => discard (llm_git_commit v)
  | Llm_git_create_branch v => discard (llm_git_create_branch v)
  | Llm_git_status => discard llm_git_status
  | Execute_function_call_dict d => discard (execute_function_call_dict d)
  end.

(** The steps that have a clause for [FileNotFoundError], in a state in which
    they get as far as starting [git]. *)
Definition detects_missing_git (s : Step) (w : World) : bool :=
  match s with
  | Get_git_status_porcelain | User_commit_changes _ | Show_git_status_cmd
  | Llm_git_status => enabled (git_context w)
  | Create_git_branch_cmd n =>
      enabled (git_context w) && negb (bool_decide (n = EmptyString))
  | Initialize_git_repo_cmd | Llm_git_init => negb (git_dir_exists w)
  | Llm_git_commit m => enabled (git_context w) && py_truthy m
  | Llm_git_create_branch (JString n) =>
      enabled (git_context w) && negb (bool_decide (Str.strip n = EmptyString))
  | _ => false
  end.

(** The steps that assign [True] to [git_context['enabled']]: the two forms of
    git initialisation, also when reached through the dispatcher. *)
Definition is_git_init (s : Step) : bool :=
  match s with
  | Initialize_git_repo_cmd | Llm_git_init => true
  | Execute_function_call_dict d => bool_decide (name (function d) = "git_init")
  | _ => false
  end.

(** A computation that never switches git on. *)
Definition keeps_disabled {A} (m : M A) : Prop :=
  ∀ w, enabled (git_context w) = false → enabled (git_context (m w).2) = false.

End Steps.

(** The exception of a [subprocess.run] that does not find its executable, and
    the state in which the call is recorded. *)
Definition not_found (argv : list string) : exn :=
  mkExn FileNotFoundError
    ("[Errno 2] No such file or directory: '" +:+ default EmptyString (head argv) +:+ "'")
    EmptyString.

Definition logged (argv : list string) (w : World) : World :=
  mkWorld (files w) (git_context w) (conversation_history w) (console w)
    (processes w ++ [argv]) (keyboard w).

(** ** Causal linkage of tool results *)

(** Every tool entry names a call of the nearest preceding assistant entry
    that carries tool calls; [last_calls] are the calls of that entry, if
    there has been one. *)
Fixpoint causally_linked_from (last_calls : option (list ToolCall)) (h : list Msg) : bool :=
  match h with
  | [] => true
  | m :: h' =>
      match role m with
      | tool =>
          match last_calls, tool_call_id m with
          | Some calls, Some i => existsb (λ c, bool_decide (id c = i)) calls
          | _, _ => false
          end
          && causally_linked_from last_calls h'
      | assistant =>
          if has_tool_calls m then causally_linked_from (tool_calls m) h'
          else causally_linked_from last_calls h'
      | _ => causally_linked_from last_calls h'
      end
  end.

Definition causally_linked (h : list Msg) : bool := causally_linked_from None h.

(** ** An example session *)

(** A reply that asks for three tool calls, each delivered as one fragment. *)
Definition three_calls_stream : list ChoiceDelta :=
  [mkDelta (Some "Let me look at the repository.") None;
   mkDelta None (Some [whole_chunk 0 (mkCallSpec "call_a" "git_status" "{}");
                       whole_chunk 1 (mkCallSpec "call_b" "git_status" "{}")]);
   mkDelta None (Some [whole_chunk 2 (mkCallSpec "call_c" "git_status" "{}")])].

(** A reply of plain text. *)
Definition plain_stream : list ChoiceDelta := [mkDelta (Some "Done.") None].

(** The session after one turn with three tool calls and [n] turns of plain
    conversation, on a machine without git. *)
Definition example_session (n : nat) : World :=
  let E := example_env git_missing false in
  Nat.iter n (λ w, (turn "go on" plain_stream w).2)
    (turn "what is the state of the repo?" three_calls_stream (initial_world ∅)).2.

(** ** The content of a streamed reply (the statement side of the stream
    loop) *)



(** ** A repository with staged changes, for the examples *)

(** [git diff --staged --quiet] finds staged changes, no branch but the
    current one exists, [git log] shows one commit, and every other command
    succeeds silently. *)
Definition git_with_staged_changes : World → list string → ProcessResult :=
  λ _ argv,
    if bool_decide (argv = ["git"; "diff"; "--staged"; "--quiet"])
    then Completed 1 EmptyString EmptyString
    else if bool_decide (take 3 argv = ["git"; "rev-parse"; "--verify"])
    then Completed 128 EmptyString "fatal: Needed a single revision"
    else if bool_decide (take 2 argv = ["git"; "log"])
    then Completed 0 ("abc1234 fix" +:+ LF) EmptyString
    else Completed 0 EmptyString EmptyString.

(** A session in a repository: git enabled, on branch [main]. *)
Definition repo_world (fs : gmap string string) : World :=
  mkWorld fs (mkGitContext true false (Some "main")) [persona] [] [] [].

(** A repository whose only change is an unstaged modification of
    [notes.txt]: [git status --porcelain] prints one line, the code [ M]
    (a space, then [M]) before the path. *)
Definition git_unstaged_change : World → list string → ProcessResult :=
  λ _ argv,
    if bool_decide (argv = ["git"; "status"; "--porcelain"])
    then Completed 0 (" M notes.txt" +:+ LF) EmptyString
    else Completed 0 EmptyString EmptyString.

(** ** Adding a directory to the conversation *)

Definition MAX_FILES_IN_ADD_DIR : nat := 1000.
Definition MAX_FILE_SIZE_IN_ADD_DIR : Z := 5000000.

Definition excluded_files : list string :=
  [".DS_Store"; "Thumbs.db"; ".gitignore"; ".python-version"; "uv.lock"; ".uv"; "uvenv";
   ".uvenv"; ".venv"; "venv"; "__pycache__"; ".pytest_cache"; ".coverage"; ".mypy_cache";
   "node_modules"; "package-lock.json"; "yarn.lock"; "pnpm-lock.yaml"; ".next"; ".nuxt";
   "dist"; "build"; ".cache"; ".parcel-cache"; ".turbo"; ".vercel"; ".output";
   ".contentlayer"; "out"; "coverage"; ".nyc_output"; "storybook-static"; ".env";
   ".env.local"; ".env.development"; ".env.production"; ".git"; ".svn"; ".hg"; "CVS"].

Definition excluded_extensions : list string :=
  [".png"; ".jpg"; ".jpeg"; ".gif"; ".ico"; ".svg"; ".webp"; ".avif"; ".mp4"; ".webm";
   ".mov"; ".mp3"; ".wav"; ".ogg"; ".zip"; ".tar"; ".gz"; ".7z"; ".rar"; ".exe"; ".dll";
   ".so"; ".dylib"; ".bin"; ".pdf"; ".doc"; ".docx"; ".xls"; ".xlsx"; ".ppt"; ".pptx";
   ".pyc"; ".pyo"; ".pyd"; ".egg"; ".whl"; ".uv"; ".uvenv"; ".db"; ".sqlite"; ".sqlite3";
   ".log"; ".idea"; ".vscode"; ".map"; ".chunk.js"; ".chunk.css"; ".min.js"; ".min.css";
   ".bundle.js"; ".bundle.css"; ".cache"; ".tmp"; ".temp"; ".ttf"; ".otf"; ".woff";
   ".woff2"; ".eot"].

(** [s.rfind(c)] for a character [c]: the highest index of an occurrence,
    [-1] when there is none. *)
Fixpoint rfind (c : ascii) (s : string) : Z :=
  match s with
  | EmptyString => (-1)%Z
  | String a s' =>
      let r := rfind c s' in
      if decide (r = -1)%Z then (if decide (a = c) then 0%Z else (-1)%Z) else (r + 1)%Z
  end.

(** [os.path.splitext(p)[1]] on a POSIX system: the text from the last dot
    of the last component on, unless only dots precede it in the component. *)
Definition splitext_ext (p : string) : string :=
  let sepIndex := rfind "/" p in
  let dotIndex := rfind "." p in
  if bool_decide (sepIndex < dotIndex)%Z then
    let before := Str.slice (Z.to_nat (sepIndex + 1)) (Z.to_nat dotIndex) p in
    if existsb (λ c, negb (bool_decide (c = "."%char))) (list_ascii_of_string before)
    then Str.drop (Z.to_nat dotIndex) p
    else EmptyString
  else EmptyString.

(** [os.path.join(a, b)] on a POSIX system. *)
Definition path_join (a b : string) : string :=
  if Str.startswith "/" b then b
  else if bool_decide (a = EmptyString) || Str.startswith "/" (String.rev a) then a +:+ b
  else a +:+ "/" +:+ b.

(** The test of the comprehension that prunes [dirs]. *)
Definition keep_dir (d : string) : bool :=
  negb (Str.startswith "." d) && negb (bool_decide (d ∈ excluded_files)).

(** The test that skips a file by its name. *)
Definition skip_name (file : string) : bool :=
  Str.startswith "." file
  || bool_decide (file ∈ excluded_files)
  || bool_decide (Str.lower (splitext_ext file) ∈ excluded_extensions).

(** A directory as [os.walk] finds it: its subdirectories and its files, by
    name, in the order of the listing. *)
Inductive DirTree :=
  | Dir (subdirs : list (string * DirTree)) (files_in : list string).

(** What [os.walk(root)] yields, top down, when the loop body prunes [dirs]
    with [keep_dir] after every step: the directory and its files, then the
    same for every subdirectory kept. *)
Fixpoint walk (root : string) (t : DirTree) : list (string * list string) :=
  match t with
  | Dir subdirs files_in =>
      (root, files_in) ::
      (fix walk_dirs (ds : list (string * DirTree)) : list (string * list string) :=
         match ds with
         | [] => []
         | (d, sub) :: ds' =>
             (if keep_dir d then walk (path_join root d) sub else []) ++ walk_dirs ds'
         end) subdirs
  end.

(** The NUL character. *)
Definition NUL : string := String "000" EmptyString.

Section AddDirectory.

Context {E : Env}.

(** The directory found at a resolved path, [None] when the path is no
    directory; and the rendering of a list of names inside an f-string. *)
Variable directories : string → option DirTree.
Variable py_list_repr : list string → string.

(** [os.path.getsize(path)] for an absolute path: the length of the file at
    the resolved path, one byte per character. *)
Definition getsize (path : string) : M Z :=
  λ w,
    match files w !! normalize_path path with
    | Some text => (Return (Z.of_nat (String.length text)), w)
    | None =>
        (Raise (mkExn FileNotFoundError
                  ("[Errno 2] No such file or directory: '" +:+ path +:+ "'") EmptyString), w)
    end.

(** [is_binary_file] with the default [peek_size] of 1024, for an absolute
    path: a file that cannot be opened counts as binary. *)
Definition is_binary_file (file_path : string) : M bool :=
  λ w,
    match files w !! normalize_path file_path with
    | Some text => (Return (Str.contains NUL (Str.take 1024 text)), w)
    | None => (Return true, w)
    end.

(** The [try] statement in the body of the loop over [files], for the file
    at [full_path]; the three local variables [skipped, added,
    total_processed] are passed through. *)
Definition add_file_in_dir (full_path : string)
    (state : list string * list string * nat) : M (list string * list string * nat) :=
  let '(skipped, added, total_processed) := state in
  try_except
    (size ← getsize full_path;
     if bool_decide (MAX_FILE_SIZE_IN_ADD_DIR < size)%Z
     then mret (skipped ++ [full_path +:+ " (size limit)"], added, total_processed)
     else
       binary ← is_binary_file full_path;
       if (binary : bool)
       then mret (skipped ++ [full_path +:+ " (binary)"], added, total_processed)
       else
         let norm_path := normalize_path full_path in
         file_content ← read_local_file norm_path;
         w ← get_world;
         set_conversation_history
           (add_file_context_smartly (conversation_history w) norm_path file_content
              DEFAULT_MAX_CONTEXT_FILES);;
         mret (skipped, added ++ [norm_path], S total_processed))
    (λ e,
       if isinstance e OSError || isinstance e ValueError
       then Some (mret (skipped ++ [full_path +:+ " (error: " +:+ exc_text e +:+ ")"],
                        added, total_processed))
       else None).

(** The loop [for file in files] of [add_directory_to_conversation]. *)
Fixpoint add_files_loop (root : string) (file_names : list string)
    (state : list string * list string * nat) : M (list string * list string * nat) :=
  match file_names with
  | [] => mret state
  | file :: rest =>
      let '(skipped, added, total_processed) := state in
      if bool_decide (MAX_FILES_IN_ADD_DIR ≤ total_processed) then mret state
      else if skip_name file
      then add_files_loop root rest (skipped ++ [path_join root file], added, total_processed)
      else
        state' ← add_file_in_dir (path_join root file) state;
        add_files_loop root rest state'
  end.

(** The loop [for root, dirs, files in os.walk(directory_path)]. *)
Fixpoint add_dirs_loop (walked : list (string * list string))
    (state : list string * list string * nat) : M (list string * list string * nat) :=
  match walked with
  | [] => mret state
  | (root, file_names) :: rest =>
      let '(_, _, total_processed) := state in
      if bool_decide (MAX_FILES_IN_ADD_DIR ≤ total_processed) then
        console_print ("[yellow]⚠ Max files (" +:+ pretty MAX_FILES_IN_ADD_DIR
                       +:+ ") reached for dir scan.");;
        mret state
      else
        state' ← add_files_loop root file_names state;
        add_dirs_loop rest state'
  end.

(** [add_directory_to_conversation]. The spinner of [console.status] is not
    part of the console. The callers pass a resolved absolute path, so the
    files that [os.path.getsize] and [open] find are those at the resolved
    paths. *)
Definition add_directory_to_conversation (directory_path : string) : M unit :=
  let walked :=
    match directories directory_path with
    | Some t => walk directory_path t
    | None => []
    end in
  '(skipped, added, total_processed) ←
    add_dirs_loop walked (([] : list string), ([] : list string), 0);
  console_print ("[bold blue]✓[/bold blue] Added folder '[bright_cyan]" +:+ directory_path
                 +:+ "[/bright_cyan]'.");;
  (if bool_decide (added ≠ [])
   then console_print (LF +:+ "[bold bright_blue]📁 Added:[/bold bright_blue] ("
                       +:+ pretty (length added) +:+ " of " +:+ pretty total_processed
                       +:+ " valid) " +:+ py_list_repr (map path_name (take 5 added))
                       +:+ (if bool_decide (5 < length added) then "..." else EmptyString))
   else mret ());;
  (if bool_decide (skipped ≠ [])
   then console_print (LF +:+ "[yellow]⏭ Skipped:[/yellow] (" +:+ pretty (length skipped)
                       +:+ ") " +:+ py_list_repr (map path_name (take 3 skipped))
                       +:+ (if bool_decide (3 < length skipped) then "..." else EmptyString))
   else mret ());;
  console_print EmptyString.




End AddDirectory.

(** ** The git commands typed by the user *)

Section Commands.

Context {E : Env}.



End Commands.

(** ** What a scan may change (the statement side of the directory scan) *)

(** From [w] to [w'] nothing has changed but the console and the system
    entries of the history: the files, the git state, the subprocesses and the
    keyboard are the same, the user, assistant and tool entries are the same,
    at most five file contexts remain unless there were more before, and a
    first system entry that is no file context is still the first. *)
Definition only_context_changed (w w' : World) : Prop :=
  files w' = files w ∧ git_context w' = git_context w ∧
  processes w' = processes w ∧ keyboard w' = keyboard w ∧
  filter (λ m, role m ≠ system) (conversation_history w')
  = filter (λ m, role m ≠ system) (conversation_history w) ∧
  length (filter (λ m, is_file_context m = true) (conversation_history w'))
  ≤ length (filter (λ m, is_file_context m = true) (conversation_history w)) `max` 5 ∧
  (∀ first, head (filter (λ m, role m = system) (conversation_history w)) = Some first →
            is_file_context first = false →
            head (filter (λ m, role m = system) (conversation_history w')) = Some first).

(** The paths that a scan of [walked] may add: the resolved path of a file
    of one of the directories walked whose name is not skipped. *)
Definition scanned_file `{E : Env} (walked : list (string * list string)) (p : string)
  : Prop :=
  ∃ root file_names file,
    (root, file_names) ∈ walked ∧ file ∈ file_names ∧ skip_name file = false ∧
    p = normalize_path (path_join root file).



(** ** Properties of the string operations *)

Module StrFacts.

Lemma app_cons (a : ascii) (s r : string) : String a s +:+ r = String a (s +:+ r).
Proof. reflexivity. Qed.

Lemma app_empty_l (r : string) : EmptyString +:+ r = r.
Proof. reflexivity. Qed.

Lemma app_empty_r (s : string) : s +:+ EmptyString = s.
Proof. induction s as [|a s IH]; [done|]. by rewrite app_cons, IH. Qed.

Lemma app_assoc (s r t : string) : (s +:+ r) +:+ t = s +:+ r +:+ t.
Proof. induction s as [|a s IH]; [done|]. by rewrite !app_cons, IH. Qed.

Lemma length_app (s r : string) :
  String.length (s +:+ r) = String.length s + String.length r.
Proof. induction s as [|a s IH]; [done|]. rewrite app_cons. simpl. by rewrite IH. Qed.

Lemma startswith_app (p s : string) : Str.startswith p (p +:+ s) = true.
Proof.
  induction p as [|a p IH]; [done|].
  rewrite app_cons. simpl. by rewrite decide_True.
Qed.

Lemma startswith_spec (p s : string) :
  Str.startswith p s = true ↔ ∃ r, s = p +:+ r.
Proof.
  revert s. induction p as [|a p IH]; intros s; simpl.
  - split; [intros _; by exists s | done].
  - destruct s as [|b s].
    + split; [done | intros [r Hr]; discriminate].
    + destruct (decide (a = b)) as [->|Hne].
      * rewrite IH. split; intros [r Hr]; exists r; rewrite ?app_cons in *; congruence.
      * split; [done | intros [r Hr]; rewrite app_cons in Hr; congruence].
Qed.

Lemma contains_app (sub pre post : string) :
  Str.contains sub (pre +:+ sub +:+ post) = true.
Proof.
  induction pre as [|c pre IH].
  - rewrite app_empty_l. destruct (sub +:+ post) as [|c r] eqn:E.
    + destruct sub; [done | discriminate].
    + simpl. rewrite <- E, startswith_app. done.
  - rewrite app_cons. simpl. rewrite IH. apply orb_true_r.
Qed.

Lemma contains_prefix (sub post : string) : Str.contains sub (sub +:+ post) = true.
Proof. apply (contains_app sub EmptyString post). Qed.

(** A string that contains [a +:+ b] contains [a]. *)
Lemma contains_weaken (a b s : string) :
  Str.contains (a +:+ b) s = true → Str.contains a s = true.
Proof.
  assert (∀ t, Str.startswith (a +:+ b) t = true → Str.startswith a t = true) as Hsw.
  { intros t [r ->]%startswith_spec. rewrite app_assoc. apply startswith_app. }
  induction s as [|c s IH]; cbn [Str.contains].
  - apply Hsw.
  - intros [H|H]%orb_prop; apply orb_true_intro; [left; by apply Hsw | right; by apply IH].
Qed.

End StrFacts.

(** ** History truncation *)

Section Truncation.

Implicit Types (h : list Msg) (max_messages : Z).

Lemma last_n_length {A} (n : nat) (l : list A) : length (last_n n l) ≤ n.
Proof. unfold last_n. rewrite length_drop. lia. Qed.

Lemma last_n_short {A} (n : nat) (l : list A) : length l ≤ n → last_n n l = l.
Proof. intros H. unfold last_n. replace (length l - n) with 0 by lia. done. Qed.

Lemma last_n_Forall {A} (P : A → Prop) (n : nat) (l : list A) :
  Forall P l → Forall P (last_n n l).
Proof. apply Forall_drop. Qed.

Lemma filter_all {A} (P : A → Prop) `{∀ x, Decision (P x)} (l : list A) :
  Forall P l → filter P l = l.
Proof.
  induction 1 as [|x l Hx _ IH]; [done|].
  rewrite filter_cons_True by done. by rewrite IH.
Qed.

Lemma filter_none {A} (P : A → Prop) `{∀ x, Decision (P x)} (l : list A) :
  Forall (λ x, ¬ P x) l → filter P l = [].
Proof.
  induction 1 as [|x l Hx _ IH]; [done|].
  rewrite filter_cons_False by done. done.
Qed.


Lemma important_system_Forall (P : Msg → Prop) (l : list Msg) :
  Forall P l → Forall P (important_system l).
Proof.
  intros Hl. unfold important_system. case_bool_decide; [|done].
  destruct l as [|first others]; [done|].
  apply Forall_cons in Hl as [Hf Ho]. constructor; [done|].
  apply last_n_Forall. apply Forall_forall. intros m Hm.
  apply list_elem_of_filter in Hm as [_ Hm].
  by eapply Forall_forall in Ho.
Qed.

(** Selecting the important system messages a second time changes nothing. *)
Lemma important_system_idem (l : list Msg) :
  important_system (important_system l) = important_system l.
Proof.
  destruct (decide (1 < length l)) as [Hlen|Hlen].
  - destruct l as [|first others]; [simpl in Hlen; lia|].
    assert (important_system (first :: others)
            = first :: last_n 3 (filter (λ m, mentions_added_file m = true) others)) as ->.
    { unfold important_system. by rewrite bool_decide_true. }
    set (fc := last_n 3 _).
    unfold important_system. case_bool_decide; [|done].
    f_equal. rewrite filter_all.
    + apply last_n_short, last_n_length.
    + apply last_n_Forall. apply Forall_forall. intros m Hm.
      by apply list_elem_of_filter in Hm as [Hm _].
  - assert (important_system l = l) as Hid.
    { unfold important_system. by rewrite bool_decide_false. }
    by rewrite !Hid.
Qed.

(** What [smart_truncate_history] returns for a history over the budget. *)
Lemma smart_truncate_history_over h max_messages :
  (max_messages < Z.of_nat (length h))%Z →
  let sys := important_system (filter (λ m, role m = system) h) in
  let r := smart_truncate_history h max_messages in
  (Z.of_nat (length r) ≤ max_messages)%Z ∨
  (r = sys ∧ (max_messages < Z.of_nat (length sys))%Z).
Proof.
  intros Hover sys r. subst r. unfold smart_truncate_history.
  rewrite bool_decide_false by lia. fold sys.
  set (K := scan_back _ _ _).
  clearbody sys K.
  case_bool_decide as Hlen; [|left; lia].
  rewrite length_app in Hlen.
  destruct (decide (Z.of_nat (length sys) ≤ max_messages)%Z) as [Hsys|Hsys].
  - left. rewrite length_app, length_drop, length_app. lia.
  - right. split; [|lia].
    rewrite drop_ge by (rewrite length_app; lia). apply app_nil_r.
Qed.

(** The system messages kept by truncation alone are a fixed point. *)
Lemma smart_truncate_history_system_only h max_messages :
  let sys := important_system (filter (λ m, role m = system) h) in
  smart_truncate_history sys max_messages = sys.
Proof.
  intros sys. unfold smart_truncate_history.
  case_bool_decide as Hfit; [done|].
  assert (Forall (λ m, role m = system) sys) as Hsys.
  { apply important_system_Forall, Forall_forall. intros m Hm.
    by apply list_elem_of_filter in Hm as [Hm _]. }
  rewrite (filter_all _ sys Hsys).
  rewrite (filter_none (λ m, role m ≠ system) sys)
    by (eapply Forall_impl; [exact Hsys | naive_solver]).
  subst sys. rewrite important_system_idem. simpl.
  rewrite drop_nil. case_bool_decide; by rewrite app_nil_r.
Qed.

End Truncation.

(** C5. [smart_truncate_history] leaves a history within the budget unchanged,
    and truncating twice with one budget gives the same history as truncating
    once. *)
Theorem smart_truncate_history_idempotent (h : list Msg) (max_messages : Z) :
  ((Z.of_nat (length h) ≤ max_messages)%Z → smart_truncate_history h max_messages = h) ∧
  smart_truncate_history (smart_truncate_history h max_messages) max_messages
  = smart_truncate_history h max_messages.
Proof.
  split.
  - intros Hfit. unfold smart_truncate_history. by rewrite bool_decide_true.
  - destruct (decide (Z.of_nat (length h) ≤ max_messages)%Z) as [Hfit|Hover].
    + unfold smart_truncate_history at 2. rewrite bool_decide_true by done.
      unfold smart_truncate_history. by rewrite bool_decide_true.
    + destruct (smart_truncate_history_over h max_messages) as [Hle|[Heq _]]; [lia| |].
      * unfold smart_truncate_history at 1. by rewrite bool_decide_true.
      * rewrite Heq. apply smart_truncate_history_system_only.
Qed.

(** ** File-context entries *)

Section FileContext.

Implicit Types (h : list Msg) (m : Msg) (p q c : string).

Lemma file_context_msg_is_context_of p c :
  is_context_of p (file_context_msg p c) = true.
Proof.
  unfold is_context_of. apply andb_true_intro. split; [reflexivity|].
  apply StrFacts.contains_prefix.
Qed.

Lemma file_context_msg_is_file_context p c :
  is_file_context (file_context_msg p c) = true.
Proof. reflexivity. Qed.

(** Eviction removes [limit - removed_count] file contexts, or all of them
    when there are fewer. *)
Lemma evict_oldest_count limit r h :
  length (filter (λ m, is_file_context m = true) (evict_oldest limit r h))
  = length (filter (λ m, is_file_context m = true) h) - Z.to_nat (limit - Z.of_nat r).
Proof.
  revert r. induction h as [|m h IH]; intros r; [done|].
  cbn [evict_oldest]. destruct (is_file_context m) eqn:Hfc; cbn [andb].
  - rewrite (filter_cons_True _ m h) by done. case_bool_decide as Hlim.
    + rewrite IH. cbn [length]. lia.
    + rewrite filter_cons_True by done. cbn [length]. rewrite IH. lia.
  - rewrite (filter_cons_False _ m h) by (rewrite Hfc; done).
    rewrite filter_cons_False by (rewrite Hfc; done). apply IH.
Qed.


Lemma evict_oldest_keeps_first limit first :
  is_file_context first = false →
  ∀ r, keeps_first_system (evict_oldest limit r) first.
Proof.
  intros Hfirst r h. revert r. induction h as [|m h IH]; intros r; simpl; [done|].
  rewrite (filter_cons _ m h). case_decide as Hsys.
  - simpl. intros [= ->]. rewrite Hfirst. simpl.
    by rewrite filter_cons_True.
  - intros Hhead. assert (is_file_context m = false) as ->.
    { unfold is_file_context, is_role. by rewrite bool_decide_false. }
    simpl. rewrite filter_cons_False by done. by apply IH.
Qed.

(** A message that carries the marker of some file mentions an added file. *)
Lemma is_context_of_file_context p m :
  is_context_of p m = true → is_file_context m = true.
Proof.
  unfold is_context_of, is_file_context, mentions_added_file.
  intros [-> Hc]%andb_prop. cbn [andb].
  apply (StrFacts.contains_weaken "User added file" (" '" +:+ p +:+ "'")), Hc.
Qed.

Lemma remove_context_keeps_first p first :
  is_file_context first = false →
  keeps_first_system (filter (λ m, is_context_of p m = false)) first.
Proof.
  intros Hfirst h. induction h as [|m h IH]; [done|].
  rewrite (filter_cons _ m h). case_decide as Hsys.
  - cbn [head]. intros [= ->].
    assert (is_context_of p first = false) as Hp.
    { destruct (is_context_of p first) eqn:Hc; [|done].
      apply is_context_of_file_context in Hc. congruence. }
    rewrite (filter_cons_True _ first h) by done.
    by rewrite filter_cons_True.
  - intros Hhead.
    rewrite (filter_cons _ m h). case_decide.
    + rewrite filter_cons_False by done. by apply IH.
    + by apply IH.
Qed.

End FileContext.




(** ** The tool-call assembler *)

Section Assembler.

Implicit Types (acc : list ToolCall) (ch : ToolCallChunk) (d : ToolCall).

Lemma length_pad_to idx acc : length (pad_to idx acc) = length acc `max` S idx.
Proof. unfold pad_to. rewrite length_app, length_replicate. lia. Qed.

Lemma view_pad_to idx acc k : view (pad_to idx acc) k = view acc k.
Proof.
  unfold view, pad_to. destruct (decide (k < length acc)) as [Hk|Hk].
  - by rewrite lookup_app_l.
  - rewrite lookup_app_r by lia. rewrite (lookup_ge_None_2 acc) by lia.
    destruct (replicate _ _ !! _) eqn:E; [|done].
    by apply lookup_replicate in E as [-> _].
Qed.

Lemma length_accumulate_chunk acc ch :
  length (accumulate_chunk acc ch) = length acc `max` S (index ch).
Proof. unfold accumulate_chunk. by rewrite length_alter, length_pad_to. Qed.

Lemma view_accumulate_chunk acc ch k :
  view (accumulate_chunk acc ch) k
  = if decide (index ch = k) then apply_chunk ch (view acc k) else view acc k.
Proof.
  unfold accumulate_chunk. case_decide as Hk.
  - subst k. unfold view at 1. rewrite list_lookup_alter_eq.
    assert (index ch < length (pad_to (index ch) acc)) as Hlt
      by (rewrite length_pad_to; lia).
    apply lookup_lt_is_Some in Hlt as [d Hd].
    rewrite Hd. simpl. f_equal.
    rewrite <- (view_pad_to (index ch)). unfold view. by rewrite Hd.
  - unfold view at 1. rewrite list_lookup_alter_ne by exact Hk.
    apply view_pad_to.
Qed.

(** Positions are independent: the entry at [k] is built from the fragments
    addressed to [k] alone, in their arrival order. *)
Lemma view_foldl acc chunks k :
  view (foldl accumulate_chunk acc chunks) k
  = foldl (λ d ch, apply_chunk ch d) (view acc k) (chunks_at k chunks).
Proof.
  revert acc. induction chunks as [|ch chunks IH]; intros acc; [done|].
  cbn [foldl]. rewrite IH, view_accumulate_chunk.
  unfold chunks_at. rewrite filter_cons.
  by destruct (decide (index ch = k)).
Qed.

(** The working list is as long as the highest position seen requires. *)
Lemma length_foldl acc chunks :
  length (foldl accumulate_chunk acc chunks) = length acc `max` needed chunks.
Proof.
  revert acc. induction chunks as [|ch chunks IH]; intros acc; simpl; [lia|].
  rewrite IH, length_accumulate_chunk. lia.
Qed.


Lemma needed_elem chunks ch : ch ∈ chunks → S (index ch) ≤ needed chunks.
Proof.
  induction 1 as [ch chunks|ch ch' chunks _ IH]; simpl; lia.
Qed.

(** *** What one fragment does to each field *)





(** *** What the fragments of one position do together *)






End Assembler.

Section ChunkInvariance.

Implicit Types (calls : list CallSpec) (chunks : list ToolCallChunk).





(** One unsplit fragment per call is itself a way of streaming the calls. *)
Lemma chunks_at_unsplit (calls : list CallSpec) :
  ∀ (o k : nat) (c : CallSpec),
    calls !! k = Some c →
    chunks_at (o + k) (imap (λ i, whole_chunk (o + i)) calls) = [whole_chunk (o + k) c].
Proof.
  induction calls as [|c0 calls IH]; intros o k c Hk; [done|].
  cbn [imap]. unfold chunks_at. rewrite filter_cons. cbn [index whole_chunk].
  destruct k as [|k]; cbn in Hk.
  - injection Hk as ->. rewrite decide_True by done. f_equal.
    apply filter_none, Forall_forall. intros ch Hch.
    apply list_elem_of_lookup in Hch as [i Hi].
    rewrite list_lookup_imap in Hi.
    destruct (calls !! i) as [c'|]; [|done]. injection Hi as <-. cbn. lia.
  - rewrite decide_False by lia.
    replace (o + S k) with (S o + k) by lia.
    rewrite <- (IH (S o) k c Hk). unfold chunks_at. f_equal.
    apply imap_ext. intros i x _. cbn. f_equal. lia.
Qed.

Lemma carries_whole_single (field : ToolCallChunk → option string) (v : string)
    (ch : ToolCallChunk) :
  field ch = Some v → carries_whole field v [ch] = true.
Proof.
  intros Hf. unfold carries_whole. cbn [forallb existsb]. rewrite Hf.
  destruct v as [|a v]; cbn [truthy].
  - by rewrite bool_decide_true.
  - rewrite (bool_decide_true (String a v = String a v)) by done.
    rewrite (bool_decide_true (Some (String a v) = Some (String a v))) by done.
    cbn [andb orb]. apply orb_true_r.
Qed.

Lemma delivers_whole_chunk (k : nat) (c : CallSpec) :
  delivers_call c [whole_chunk k c] = true.
Proof.
  unfold delivers_call.
  apply andb_true_intro; split;
    [apply andb_true_intro; split; [apply andb_true_intro; split|]|].
  - by apply bool_decide_eq_true.
  - by apply carries_whole_single.
  - by apply carries_whole_single.
  - apply bool_decide_eq_true. cbn. apply StrFacts.app_empty_r.
Qed.

Lemma streams_unsplit (calls : list CallSpec) : streams calls (unsplit calls) = true.
Proof.
  unfold streams, unsplit. apply andb_true_intro. split.
  - apply forallb_forall. intros ch Hch. apply bool_decide_eq_true.
    apply list_elem_of_In, list_elem_of_lookup in Hch as [i Hi].
    rewrite list_lookup_imap in Hi.
    destruct (calls !! i) as [c|] eqn:Hc; [|done]. injection Hi as <-. cbn.
    by eapply lookup_lt_Some.
  - apply forallb_forall. intros b Hb.
    apply list_elem_of_In, list_elem_of_lookup in Hb as [k Hk].
    rewrite list_lookup_imap in Hk.
    destruct (calls !! k) as [c|] eqn:Hc; [|done]. injection Hk as <-.
    pose proof (chunks_at_unsplit calls 0 k c Hc) as Hat.
    change (chunks_at k (imap whole_chunk calls) = [whole_chunk k c]) in Hat.
    rewrite Hat. apply delivers_whole_chunk.
Qed.

End ChunkInvariance.



(** ** Occurrences, counting and replacement *)

Module CountFacts.

Import StrFacts.




(** No occurrence, no count. *)
Lemma count_from_zero_not_contains (sub : string) (s : string) :
  sub ≠ EmptyString → Str.count_from sub 0 s = 0 → Str.contains sub s = false.
Proof.
  intros Hsub. induction s as [|c s IH]; cbn [Str.count_from Str.contains].
  - intros _. by destruct sub.
  - destruct (Str.startswith sub (String c s)); [done|]. intros H. by rewrite (IH H).
Qed.



End CountFacts.

(** ** The snippet editor *)

(** Unfolds the operations of the monad [M] and the primitive actions. *)
Ltac unfold_monad :=
  unfold mbind, M_bind, mret, M_ret, try_except, raise, reraise, get_world,
    console_print, set_enabled, set_branch, set_git_context,
    set_conversation_history, write_file in *.

Section Editor.

Context {E : Env}.





End Editor.






(** ** Validation of assembled tool calls *)

Section Validation.

Context {E : Env}.



End Validation.


(** ** The dispatcher *)

Section Dispatcher.

Context {E : Env}.



End Dispatcher.






(** ** Git availability *)

Section GitDisabled.

Context {E : Env}.

Lemma kd_ret {A} (a : A) : keeps_disabled (mret a : M A).
Proof. by intros w Hw. Qed.

Lemma kd_bind {A B} (m : M A) (f : A → M B) :
  keeps_disabled m → (∀ a, keeps_disabled (f a)) → keeps_disabled (m ≫= f).
Proof.
  intros Hm Hf w Hw. unfold mbind, M_bind. specialize (Hm w Hw).
  destruct (m w) as [[a|e] w1]; [|done]. by apply Hf.
Qed.

Lemma kd_try {A} (body : M A) (handler : exn → option (M A)) :
  keeps_disabled body →
  (∀ e, match handler e with Some h => keeps_disabled h | None => True end) →
  keeps_disabled (try_except body handler).
Proof.
  intros Hb Hh w Hw. unfold try_except. specialize (Hb w Hw).
  destruct (body w) as [[a|e] w1]; [done|].
  specialize (Hh e). destruct (handler e) as [h|]; [|done]. by apply Hh.
Qed.

Lemma kd_raise {A} cls text : keeps_disabled (raise cls text : M A).
Proof. by intros w Hw. Qed.

Lemma kd_reraise {A} e : keeps_disabled (reraise e : M A).
Proof. by intros w Hw. Qed.

Lemma kd_get_world : keeps_disabled get_world.
Proof. by intros w Hw. Qed.

Lemma kd_console_print text : keeps_disabled (console_print text).
Proof. by intros w Hw. Qed.

Lemma kd_write_file p c : keeps_disabled (write_file p c).
Proof. by intros w Hw. Qed.

Lemma kd_set_conversation_history h : keeps_disabled (set_conversation_history h).
Proof. by intros w Hw. Qed.

Lemma kd_set_branch n : keeps_disabled (set_branch n).
Proof. by intros w Hw. Qed.

Lemma kd_set_disabled : keeps_disabled (set_enabled false).
Proof. by intros w Hw. Qed.

Lemma kd_prompt text : keeps_disabled (prompt text).
Proof. intros w Hw. unfold prompt. by destruct (keyboard w). Qed.

Lemma kd_read_custom_patterns : keeps_disabled read_custom_patterns.
Proof.
  intros w Hw. unfold read_custom_patterns.
  destruct (custom_patterns (keyboard w)) as [[ps r] []]; done.
Qed.

Lemma kd_subprocess_run argv check : keeps_disabled (subprocess_run argv check).
Proof.
  intros w Hw. unfold subprocess_run.
  destruct (run_process w argv); [done|]. by destruct (_ && _).
Qed.

Lemma kd_read_local_file p : keeps_disabled (read_local_file p).
Proof. intros w Hw. unfold read_local_file. by destruct (files w !! _). Qed.

Lemma kd_git_except {A} (result : exn → M A) e :
  (∀ e, keeps_disabled (result e)) →
  match git_except result e with Some h => keeps_disabled h | None => True end.
Proof.
  intros Hr. unfold git_except. destruct (_ || _); [|done].
  apply kd_bind; [|done]. destruct (isinstance e FileNotFoundError);
    [apply kd_set_disabled | apply kd_ret].
Qed.

Lemma kd_git_except_print {A} (message : exn → string) (a : A) e :
  match git_except_print message a e with Some h => keeps_disabled h | None => True end.
Proof.
  unfold git_except_print. destruct (_ || _); [|done].
  apply kd_bind; [apply kd_console_print|intros _].
  apply kd_bind; [|intros _; apply kd_ret].
  destruct (isinstance e FileNotFoundError); [apply kd_set_disabled | apply kd_ret].
Qed.

End GitDisabled.

Create HintDb kd discriminated.

#[export] Hint Resolve kd_ret kd_raise kd_reraise kd_get_world kd_console_print
  kd_write_file kd_set_conversation_history kd_set_branch kd_set_disabled kd_prompt
  kd_read_custom_patterns kd_subprocess_run kd_read_local_file : kd.

(** One step of a proof that a computation never switches git on: split a
    bind or a [try], or decide the condition the computation branches on. *)
Ltac kd_step :=
  lazymatch goal with
  | |- keeps_disabled (mbind _ _) => apply kd_bind; [|intros ?]
  | |- keeps_disabled (try_except _ _) => apply kd_try; [|intros ?]
  | |- keeps_disabled (if ?b then _ else _) => destruct b
  | |- keeps_disabled (match ?x with _ => _ end) => destruct x
  | |- match git_except_print _ _ _ with _ => _ end => apply kd_git_except_print
  | |- match git_except _ _ with _ => _ end => apply kd_git_except; intros ?
  | |- match (if ?b then _ else _) with _ => _ end => destruct b
  | |- match Some _ with _ => _ end => cbv beta iota
  | |- match None with _ => _ end => exact I
  | |- True => exact I
  | |- _ => solve [eauto with kd]
  end.

Ltac kd := repeat kd_step.

Section GitStaysDisabled.

Context {E : Env}.

Lemma kd_stage_file p : keeps_disabled (stage_file p).
Proof. unfold stage_file. kd. Qed.

Lemma kd_create_file p c : keeps_disabled (create_file p c).
Proof. unfold create_file. pose proof kd_stage_file. kd. Qed.

Lemma kd_apply_diff_edit_except p o c e : keeps_disabled (apply_diff_edit_except p o c e).
Proof. unfold apply_diff_edit_except. kd. Qed.

Lemma kd_apply_diff_edit_try p o n c : keeps_disabled (apply_diff_edit_try p o n c).
Proof. unfold apply_diff_edit_try. pose proof kd_create_file. kd. Qed.

Lemma kd_apply_diff_edit p o n : keeps_disabled (apply_diff_edit p o n).
Proof.
  intros w Hw. unfold apply_diff_edit.
  pose proof (kd_read_local_file (normalize_path p) w Hw) as Hr.
  destruct (read_local_file _ w) as [[c|e] w1]; cbn in Hr.
  - pose proof (kd_apply_diff_edit_try (normalize_path p) o n c w1 Hr) as Ht.
    destruct (apply_diff_edit_try _ _ _ _ w1) as [[[]|e] w2]; cbn in Ht; [done|].
    by apply kd_apply_diff_edit_except.
  - by apply kd_apply_diff_edit_except.
Qed.

Lemma kd_ensure_file_in_context p : keeps_disabled (ensure_file_in_context p).
Proof. unfold ensure_file_in_context. kd. Qed.

Lemma kd_get_git_status_porcelain : keeps_disabled get_git_status_porcelain.
Proof. unfold get_git_status_porcelain. kd. Qed.

Lemma kd_create_gitignore : keeps_disabled create_gitignore.
Proof. unfold create_gitignore. pose proof kd_stage_file. kd. Qed.

Lemma kd_user_commit_changes m : keeps_disabled (user_commit_changes m).
Proof. unfold user_commit_changes. kd. Qed.

Lemma kd_create_git_branch_cmd n : keeps_disabled (create_git_branch_cmd n).
Proof. unfold create_git_branch_cmd. kd. Qed.

Lemma kd_show_git_status_cmd : keeps_disabled show_git_status_cmd.
Proof. unfold show_git_status_cmd. pose proof kd_get_git_status_porcelain. kd. Qed.

Lemma kd_llm_git_add_loop paths lists : keeps_disabled (llm_git_add_loop paths lists).
Proof.
  revert lists. induction paths as [|v paths IH]; intros lists; cbn [llm_git_add_loop].
  - kd.
  - apply kd_bind; [|done]. unfold llm_git_add_one, as_str.
    pose proof kd_stage_file. kd.
Qed.

Lemma kd_llm_git_add v : keeps_disabled (llm_git_add v).
Proof. unfold llm_git_add, iterate. pose proof kd_llm_git_add_loop. kd. Qed.

Lemma kd_llm_git_commit v : keeps_disabled (llm_git_commit v).
Proof.
  unfold llm_git_commit, as_str. kd.
  pose proof (kd_git_except (λ e, mret ("Git commit error: " +:+ exc_text e)) e) as H.
  destruct (git_except _ e); [apply H; intros; kd | kd].
Qed.

Lemma kd_llm_git_create_branch v : keeps_disabled (llm_git_create_branch v).
Proof. unfold llm_git_create_branch. kd. Qed.

Lemma kd_llm_git_status : keeps_disabled llm_git_status.
Proof. unfold llm_git_status. pose proof kd_get_git_status_porcelain. kd. Qed.

End GitStaysDisabled.

Section DispatcherKeepsDisabled.

Context {E : Env}.

Lemma kd_subscript v k : keeps_disabled (subscript v k).
Proof. unfold subscript. kd. Qed.

Lemma kd_get_or v k d : keeps_disabled (get_or v k d).
Proof. unfold get_or. kd. Qed.

Lemma kd_as_str v : keeps_disabled (as_str v).
Proof. unfold as_str. kd. Qed.

Lemma kd_iterate v : keeps_disabled (iterate v).
Proof. unfold iterate. kd. Qed.

Lemma kd_create_file_json p c : keeps_disabled (create_file_json p c).
Proof. unfold create_file_json. pose proof kd_create_file. pose proof kd_as_str. kd. Qed.

Lemma kd_apply_diff_edit_json p o n : keeps_disabled (apply_diff_edit_json p o n).
Proof.
  unfold apply_diff_edit_json.
  pose proof kd_apply_diff_edit. pose proof kd_apply_diff_edit_except.
  destruct o as [| | |o| |]; try solve [kd].
  destruct n as [| | |n| |]; try solve [kd].
  all: intros w Hw;
    pose proof (kd_read_local_file (normalize_path p) w Hw) as Hr;
    destruct (read_local_file _ w) as [[c|e] w1]; cbn in Hr;
    [|by apply kd_apply_diff_edit_except];
    case_bool_decide; [done|];
    pose proof (kd_apply_diff_edit_try (normalize_path p) o EmptyString c w1 Hr) as Ht;
    destruct (apply_diff_edit_try _ _ _ _ w1) as [[[]|e] w2]; cbn in Ht; [done|];
    by apply kd_apply_diff_edit_except.
Qed.

Lemma kd_read_files_loop paths results : keeps_disabled (read_files_loop paths results).
Proof.
  revert results. induction paths as [|v paths IH]; intros results; cbn [read_files_loop].
  - kd.
  - pose proof kd_as_str. kd.
Qed.

Lemma kd_create_files_loop infos lists : keeps_disabled (create_files_loop infos lists).
Proof.
  revert lists. induction infos as [|v infos IH]; intros lists; cbn [create_files_loop].
  - kd.
  - pose proof kd_subscript. pose proof kd_get_or. pose proof kd_create_file_json. kd.
Qed.

Lemma kd_dispatch func_name args :
  func_name ≠ "git_init" → keeps_disabled (dispatch func_name args).
Proof.
  intros Hname. unfold dispatch.
  rewrite (bool_decide_false (func_name = "git_init")) by done.
  pose proof kd_subscript. pose proof kd_get_or. pose proof kd_as_str.
  pose proof kd_iterate. pose proof kd_create_file_json. pose proof kd_apply_diff_edit_json.
  pose proof kd_read_files_loop. pose proof kd_create_files_loop.
  pose proof kd_ensure_file_in_context. pose proof kd_llm_git_add.
  pose proof kd_llm_git_commit. pose proof kd_llm_git_create_branch.
  pose proof kd_llm_git_status.
  kd.
Qed.

Lemma kd_execute_function_call_dict d :
  name (function d) ≠ "git_init" → keeps_disabled (execute_function_call_dict d).
Proof.
  intros Hname. unfold execute_function_call_dict.
  pose proof (kd_dispatch (name (function d))). kd.
Qed.

Lemma kd_discard {A} (m : M A) : keeps_disabled m → keeps_disabled (discard m).
Proof. intros Hm. unfold discard. kd. Qed.

(** Every step but git initialisation leaves a disabled git disabled. *)
Lemma run_step_keeps_disabled (s : Step) :
  is_git_init s = false → keeps_disabled (run_step s).
Proof.
  destruct s; cbn [is_git_init run_step]; try done; intros Hinit;
    try apply kd_discard;
    eauto using kd_stage_file, kd_create_file, kd_apply_diff_edit,
      kd_ensure_file_in_context, kd_get_git_status_porcelain, kd_user_commit_changes,
      kd_create_git_branch_cmd, kd_show_git_status_cmd, kd_llm_git_add,
      kd_llm_git_commit, kd_llm_git_create_branch, kd_llm_git_status.
  apply kd_execute_function_call_dict. by apply bool_decide_eq_false in Hinit.
Qed.

End DispatcherKeepsDisabled.

Section GitDetection.

Context {E : Env}.

Hypothesis git_absent : ∀ w argv, run_process w argv = ExecutableNotFound.

Lemma subprocess_run_absent argv check w :
  subprocess_run argv check w = (Raise (not_found argv), logged argv w).
Proof. unfold subprocess_run. by rewrite git_absent. Qed.

Lemma bind_raise {A B} (m : M A) (f : A → M B) w e w1 :
  m w = (Raise e, w1) → (m ≫= f) w = (Raise e, w1).
Proof. intros H. unfold mbind, M_bind. by rewrite H. Qed.

Lemma bind_return {A B} (m : M A) (f : A → M B) w a w1 :
  m w = (Return a, w1) → (m ≫= f) w = f a w1.
Proof. intros H. unfold mbind, M_bind. by rewrite H. Qed.

Lemma try_except_raise {A} (body : M A) handler w e w1 h :
  body w = (Raise e, w1) → handler e = Some h → try_except body handler w = h w1.
Proof. intros Hb Hh. unfold try_except. by rewrite Hb, Hh. Qed.

Lemma get_git_status_porcelain_absent w :
  enabled (git_context w) = true →
  enabled (git_context (get_git_status_porcelain w).2) = false.
Proof.
  intros Hen. unfold get_git_status_porcelain.
  erewrite bind_return by reflexivity. rewrite Hen. cbn [negb].
  erewrite try_except_raise; [|apply bind_raise, subprocess_run_absent|reflexivity].
  done.
Qed.

Lemma discard_world {A} (m : M A) w : (discard m w).2 = (m w).2.
Proof. unfold discard, mbind, M_bind. by destruct (m w) as [[a|e] w1]. Qed.

Lemma detects_then_keeps {A B} (m : M A) (k : A → M B) w :
  enabled (git_context (m w).2) = false → (∀ a, keeps_disabled (k a)) →
  enabled (git_context ((m ≫= k) w).2) = false.
Proof.
  intros Hm Hk. unfold mbind, M_bind.
  destruct (m w) as [[a|e] w1]; [|done]. by apply Hk.
Qed.

(** The pattern shared by the git functions: the guards pass, the first
    subprocess of the [try] block does not find git, and the clause for
    [FileNotFoundError] switches git off. *)
Ltac first_subprocess_absent :=
  rewrite discard_world;
  erewrite bind_return by reflexivity;
  repeat match goal with
         | H : _ = _ |- _ => rewrite H
         end;
  cbn [negb];
  try (erewrite bind_return by reflexivity;
       repeat match goal with
              | H : _ = _ |- _ => rewrite H
              end);
  erewrite try_except_raise;
    [|apply bind_raise, subprocess_run_absent|reflexivity];
  reflexivity.

(** On a machine without the git executable, every step that has a clause for
    [FileNotFoundError] and gets as far as starting git switches git off. *)
Lemma run_step_detects_missing_git (s : Step) (w : World) :
  detects_missing_git s w = true →
  enabled (git_context (run_step s w).2) = false.
Proof.
  intros Hdet.
  destruct s as [| | | | | | | | | | | | v | |]; cbn [detects_missing_git] in Hdet;
    try discriminate;
    try (destruct v; try discriminate);
    repeat match type of Hdet with
           | _ && _ = true => apply andb_prop in Hdet as [Hdet ?]
           end;
    repeat match goal with
           | H : negb _ = true |- _ => apply negb_true_iff in H
           end;
    unfold run_step.
  - rewrite discard_world. by apply get_git_status_porcelain_absent.
  - unfold user_commit_changes. first_subprocess_absent.
  - unfold initialize_git_repo_cmd. first_subprocess_absent.
  - unfold create_git_branch_cmd. first_subprocess_absent.
  - unfold show_git_status_cmd. rewrite discard_world.
    erewrite bind_return by reflexivity. rewrite Hdet. cbn [negb].
    apply detects_then_keeps; [by apply get_git_status_porcelain_absent|].
    intros a. kd.
  - unfold llm_git_init. first_subprocess_absent.
  - unfold llm_git_commit. first_subprocess_absent.
  - unfold llm_git_create_branch. first_subprocess_absent.
  - unfold llm_git_status. first_subprocess_absent.
Qed.

End GitDetection.

(** C8 (as amended). When the git executable is absent, every step with a
    clause for [FileNotFoundError] that gets as far as starting git sets
    [git_context['enabled']] to [False]; and once it is [False], every step
    other than git initialisation ([/git init], the tool [git_init]) leaves it
    [False]. *)
Theorem git_disabled_until_git_init `{E : Env} (s : Step) (w : World) :
  ((∀ w' argv, run_process w' argv = ExecutableNotFound) →
   detects_missing_git s w = true →
   enabled (git_context (run_step s w).2) = false) ∧
  (is_git_init s = false →
   enabled (git_context w) = false →
   enabled (git_context (run_step s w).2) = false).
Proof.
  split.
  - intros Habsent. by apply run_step_detects_missing_git.
  - intros Hinit. by apply run_step_keeps_disabled.
Qed.

Lemma git_disabled_until_git_init_witness :
  let E := example_env git_missing false in
  let on := mkWorld ∅ (mkGitContext true false (Some "main")) [persona] [] [] [] in
  let off := initial_world ∅ in
  enabled (git_context (run_step Llm_git_status on).2) = false ∧
  enabled (git_context (run_step (Llm_git_commit (JString "msg")) off).2) = false.
Proof.
  intros E on off. split.
  - apply (proj1 (git_disabled_until_git_init (E:=E) Llm_git_status on)); reflexivity.
  - apply (proj2 (git_disabled_until_git_init (E:=E) (Llm_git_commit (JString "msg")) off));
      reflexivity.
Defined.

(** C8 as stated fails. The machine has no git executable and the working
    directory has a [.git] directory. Start-up detects the absence and
    switches git off; the tool [git_init] switches it on again without
    starting git; [git_status] detects the absence once more, and [git_init]
    switches git on once more. *)
Lemma git_init_reenables_counterexample :
  let E := example_env git_missing true in
  let git_init := mkToolCall "call_1" "function" (mkFunctionCall "git_init" "{}") in
  let git_status := mkToolCall "call_2" "function" (mkFunctionCall "git_status" "{}") in
  let w1 := (startup (initial_world ∅)).2 in
  let w2 := (execute_function_call_dict git_init w1).2 in
  let w3 := (execute_function_call_dict git_status w2).2 in
  let w4 := (execute_function_call_dict git_init w3).2 in
  console w1 = ["[yellow]Git not found. Git features disabled.[/yellow]"] ∧
  enabled (git_context w1) = false ∧
  enabled (git_context w2) = true ∧
  enabled (git_context w3) = false ∧
  enabled (git_context w4) = true.
Proof. repeat split; vm_compute; reflexivity. Qed.

(** ** Truncation and the causal linkage of tool results *)

(** Truncation keeps the first system entry as the first system entry. *)
Lemma smart_truncate_history_keeps_first_system (max_messages : Z) (first : Msg) :
  keeps_first_system (λ h, smart_truncate_history h max_messages) first.
Proof.
  intros h Hhead. unfold smart_truncate_history.
  case_bool_decide; [done|].
  set (sys := filter (λ m, role m = system) h) in *.
  assert (Forall (λ m, role m = system) (important_system sys)) as Hsys.
  { apply important_system_Forall, Forall_forall. intros m Hm.
    by apply list_elem_of_filter in Hm as [Hm _]. }
  assert (head (important_system sys) = Some first) as Himp.
  { unfold important_system. case_bool_decide; [|done].
    destruct sys as [|m sys']; [done|]. by injection Hhead as ->. }
  assert (∀ rest, head (filter (λ m, role m = system) (important_system sys ++ rest))
                  = Some first) as Hrest.
  { intros rest. rewrite filter_app, (filter_all _ _ Hsys).
    destruct (important_system sys); [done|]. done. }
  case_bool_decide; apply Hrest.
Qed.

(** C4, at a session the program can reach. After one turn with three tool
    calls and 22 turns of plain conversation the history has 50 entries and
    every tool entry is linked to its assistant entry. The next turn brings it
    to 52 entries; truncation to 50 keeps the three tool results and, in its
    final trim, removes the assistant entry that called them: the history then
    starts with the system entry followed by three tool entries that no
    assistant entry precedes. *)
Theorem smart_truncate_history_orphans_tool_results :
  let before := conversation_history (example_session 22) in
  let after := conversation_history (example_session 23) in
  length before = 50 ∧
  causally_linked before = true ∧
  after = smart_truncate_history
            (before ++ [user_msg "go on"; mkMsg assistant "Done." None None None])
            MAX_HISTORY_MESSAGES ∧
  take 4 (map role after) = [system; tool; tool; tool] ∧
  causally_linked after = false.
Proof. repeat split; vm_compute; reflexivity. Qed.

(** * Further properties of the code *)

(** ** History truncation *)

Section TruncationShape.

Implicit Types (h rest keep : list Msg) (m : Msg).

Lemma important_system_length (l : list Msg) :
  length (important_system l) ≤ 4 ∨ important_system l = l ∧ length l ≤ 1.
Proof.
  unfold important_system. case_bool_decide as Hlen; [|right; split; [done|lia]].
  left. destruct l as [|first others]; [simpl; lia|].
  cbn [length]. pose proof (last_n_length 3 (filter (λ m, mentions_added_file m = true) others)).
  lia.
Qed.

Lemma important_system_head (first : Msg) (l : list Msg) :
  head (important_system (first :: l)) = Some first.
Proof. unfold important_system. by case_bool_decide. Qed.

(** The backward scan keeps a run of the newest messages: what it adds to
    [keep] is a prefix of [rest], put back in list order. *)
Lemma scan_back_take (q : Z) rest :
  ∀ keep,
    (∃ n, scan_back q rest keep = reverse (take n rest) ++ keep) ∧
    (∃ n, collect_run q rest keep = reverse (take n rest) ++ keep).
Proof.
  induction rest as [|m rest IH]; intros keep.
  - split; exists 0; reflexivity.
  - destruct (IH (m :: keep)) as [[n1 H1] [n2 H2]].
    assert (∀ n, reverse (take n rest) ++ m :: keep
                 = reverse (take (S n) (m :: rest)) ++ keep) as Hcons.
    { intros n. cbn [take]. rewrite reverse_cons, <- (assoc_L (++)). done. }
    split; cbn [scan_back collect_run].
    + case_bool_decide; [|by exists 0].
      destruct (is_role tool m).
      * exists (S n2). by rewrite H2, Hcons.
      * exists (S n1). by rewrite H1, Hcons.
    + destruct (is_role tool m); [exists (S n2); by rewrite H2, Hcons|].
      destruct (is_role assistant m && has_tool_calls m);
        [exists (S n1); by rewrite H1, Hcons|].
      case_bool_decide; [|by exists 0].
      exists (S n1). by rewrite H1, Hcons.
Qed.

Lemma reverse_take_suffix {A} (n : nat) (l : list A) :
  reverse (take n (reverse l)) `suffix_of` l.
Proof.
  exists (reverse (drop n (reverse l))).
  rewrite <- reverse_app, take_drop. by rewrite reverse_involutive.
Qed.

End TruncationShape.

(** X1. When the history starts with a system entry, as it does from the
    start of a session on, the truncated history starts with that same
    entry, whatever the budget. *)
Theorem smart_truncate_history_keeps_leading_system
    (first : Msg) (rest : list Msg) (max_messages : Z) :
  role first = system →
  head (smart_truncate_history (first :: rest) max_messages) = Some first.
Proof.
  intros Hsys. unfold smart_truncate_history. case_bool_decide; [done|].
  rewrite (filter_cons_True (λ m, role m = system) first rest) by done.
  pose proof (important_system_head first (filter (λ m, role m = system) rest)) as Hhead.
  destruct (important_system _) as [|x sys]; [done|].
  cbn in Hhead. case_bool_decide; exact Hhead.
Qed.

Lemma smart_truncate_history_keeps_leading_system_witness :
  head (smart_truncate_history
          [persona; user_msg "a"; user_msg "b"; user_msg "c"] 2) = Some persona.
Proof.
  apply (smart_truncate_history_keeps_leading_system persona
           [user_msg "a"; user_msg "b"; user_msg "c"] 2).
  reflexivity.
Defined.


(** X2. With a budget of at least four messages the truncated history never
    has more entries than the budget; this covers the budget of 50 that the
    main loop uses. *)
Theorem smart_truncate_history_within_budget (h : list Msg) (max_messages : Z) :
  (4 ≤ max_messages)%Z →
  (Z.of_nat (length (smart_truncate_history h max_messages)) ≤ max_messages)%Z.
Proof.
  intros Hmax.
  destruct (decide (Z.of_nat (length h) ≤ max_messages)%Z) as [Hfit|Hover].
  - unfold smart_truncate_history. by rewrite bool_decide_true.
  - destruct (smart_truncate_history_over h max_messages ltac:(lia)) as [Hle|[_ Hsys]];
      [exact Hle|].
    exfalso.
    destruct (important_system_length (filter (λ m, role m = system) h)) as [H4|[Heq H1]].
    + lia.
    + rewrite Heq in Hsys. lia.
Qed.

Lemma smart_truncate_history_within_budget_witness :
  (Z.of_nat (length (smart_truncate_history
                       [persona; user_msg "a"; user_msg "b"; user_msg "c"; user_msg "d"] 4))
   ≤ 4)%Z.
Proof.
  apply (smart_truncate_history_within_budget
           [persona; user_msg "a"; user_msg "b"; user_msg "c"; user_msg "d"] 4).
  lia.
Defined.

(** X3. A history over the budget is cut to the selected system entries (the
    first one and the last three that mention an added file) followed by a
    run of the most recent other entries: what is kept of the conversation is
    a suffix of it, in its order, with no gap. *)
Theorem smart_truncate_history_keeps_recent_suffix (h : list Msg) (max_messages : Z) :
  (max_messages < Z.of_nat (length h))%Z →
  ∃ kept,
    smart_truncate_history h max_messages
    = important_system (filter (λ m, role m = system) h) ++ kept ∧
    kept `suffix_of` filter (λ m, role m ≠ system) h.
Proof.
  intros Hover. unfold smart_truncate_history. rewrite bool_decide_false by lia.
  set (sys := important_system _). set (others := filter (λ m, role m ≠ system) h).
  destruct (scan_back_take (max_messages - Z.of_nat (length sys)) (reverse others) [])
    as [[n Hscan] _].
  rewrite Hscan, app_nil_r.
  pose proof (reverse_take_suffix n others) as Hsuffix.
  cbn zeta. case_bool_decide.
  - eexists. split; [reflexivity|].
    etrans; [apply suffix_drop|exact Hsuffix].
  - eexists. split; [reflexivity|exact Hsuffix].
Qed.

Lemma smart_truncate_history_keeps_recent_suffix_witness :
  ∃ kept,
    smart_truncate_history [persona; user_msg "a"; user_msg "b"; user_msg "c"] 2
    = important_system
        (filter (λ m, role m = system) [persona; user_msg "a"; user_msg "b"; user_msg "c"])
      ++ kept ∧
    kept `suffix_of`
      filter (λ m, role m ≠ system) [persona; user_msg "a"; user_msg "b"; user_msg "c"].
Proof.
  apply (smart_truncate_history_keeps_recent_suffix
           [persona; user_msg "a"; user_msg "b"; user_msg "c"] 2).
  simpl. lia.
Defined.

(** ** File contexts *)

Section FileContextMore.

Implicit Types (h : list Msg) (m : Msg) (p c : string).

Lemma evict_oldest_Forall (P : Msg → Prop) limit r h :
  Forall P h → Forall P (evict_oldest limit r h).
Proof.
  intros HP. revert r. induction HP as [|m h Hm HP IH]; intros r; cbn [evict_oldest];
    [constructor|].
  destruct (is_file_context m && bool_decide (Z.of_nat r < limit)%Z); [apply IH|].
  constructor; [exact Hm | apply IH].
Qed.

(** Eviction removes file contexts only. *)
Lemma evict_oldest_filter_other (P : Msg → Prop) `{∀ m, Decision (P m)} limit r h :
  (∀ m, P m → is_file_context m = false) →
  filter P (evict_oldest limit r h) = filter P h.
Proof.
  intros HP. revert r. induction h as [|m h IH]; intros r; [done|].
  cbn [evict_oldest]. rewrite (filter_cons P m h).
  destruct (is_file_context m) eqn:Hfc; cbn [andb].
  - rewrite decide_False by (intros Hm; apply HP in Hm; congruence).
    case_bool_decide; [apply IH|].
    rewrite filter_cons_False by (intros Hm; apply HP in Hm; congruence). apply IH.
  - rewrite filter_cons. by rewrite IH.
Qed.

Lemma filter_filter_implied {A} (P Q : A → Prop)
    `{∀ x, Decision (P x)} `{∀ x, Decision (Q x)} (l : list A) :
  (∀ x, P x → Q x) → filter P (filter Q l) = filter P l.
Proof.
  intros HPQ. induction l as [|x l IH]; [done|].
  rewrite (filter_cons Q x l), (filter_cons P x l).
  destruct (decide (Q x)) as [HQ|HQ].
  - rewrite filter_cons. by rewrite IH.
  - rewrite decide_False by (intros HP; by apply HQ, HPQ). exact IH.
Qed.

Lemma not_system_not_file_context m : role m ≠ system → is_file_context m = false.
Proof. intros Hr. unfold is_file_context, is_role. by rewrite bool_decide_false. Qed.

Lemma not_system_not_context_of p m : role m ≠ system → is_context_of p m = false.
Proof. intros Hr. unfold is_context_of, is_role. by rewrite bool_decide_false. Qed.

(** The history before the new entry is appended: the old contexts of the
    file removed and, at the cap, the oldest file contexts evicted. *)
Lemma add_file_context_smartly_prefix h p c (max_context_files : Z) :
  (1 ≤ max_context_files)%Z →
  ∃ h2, add_file_context_smartly h p c max_context_files = h2 ++ [file_context_msg p c] ∧
    (∀ c', add_file_context_smartly h p c' max_context_files
           = h2 ++ [file_context_msg p c']) ∧
    Forall (λ m, is_context_of p m = false) h2 ∧
    (Z.of_nat (length (filter (λ m, is_file_context m = true) h2)) < max_context_files)%Z.
Proof.
  intros Hmax. unfold add_file_context_smartly.
  set (h1 := filter (λ m, is_context_of p m = false) h).
  set (n := length (filter (λ m, is_file_context m = true) h1)).
  assert (Forall (λ m, is_context_of p m = false) h1) as Hh1.
  { apply Forall_forall. intros m Hm. by apply list_elem_of_filter in Hm as [Hm _]. }
  eexists. split; [reflexivity|]. split; [reflexivity|].
  case_bool_decide as Hfull.
  - split; [by apply evict_oldest_Forall|].
    rewrite evict_oldest_count. fold n. lia.
  - split; [exact Hh1 | fold n; lia].
Qed.

End FileContextMore.

Lemma add_file_context_smartly_nonsystem
    (h : list Msg) (p c : string) (max_context_files : Z) :
  filter (λ m, role m ≠ system) (add_file_context_smartly h p c max_context_files)
  = filter (λ m, role m ≠ system) h.
Proof.
  unfold add_file_context_smartly. rewrite filter_app.
  rewrite (filter_cons_False _ (file_context_msg p c)) by (cbn; naive_solver).
  rewrite filter_nil, app_nil_r.
  assert (filter (λ m, role m ≠ system) (filter (λ m, is_context_of p m = false) h)
          = filter (λ m, role m ≠ system) h) as Hh1.
  { apply filter_filter_implied. intros m. apply not_system_not_context_of. }
  case_bool_decide; [|exact Hh1].
  rewrite evict_oldest_filter_other by (intros m; apply not_system_not_file_context).
  exact Hh1.
Qed.

Lemma add_file_context_smartly_keeps_first
    (h : list Msg) (p c : string) (max_context_files : Z) (first : Msg) :
  head (filter (λ m, role m = system) h) = Some first →
  is_file_context first = false →
  head (filter (λ m, role m = system) (add_file_context_smartly h p c max_context_files))
  = Some first.
Proof.
  intros Hhead Hfirst. unfold add_file_context_smartly. rewrite filter_app.
  set (h1 := filter (λ m, is_context_of p m = false) h).
  assert (head (filter (λ m, role m = system) h1) = Some first) as Hh1
    by (by apply remove_context_keeps_first).
  match goal with |- head (filter _ ?h2 ++ _) = _ =>
    assert (head (filter (λ m, role m = system) h2) = Some first) as Hh2;
    [|destruct (filter (λ m, role m = system) h2); [done | exact Hh2]] end.
  case_bool_decide; [|exact Hh1]. by apply evict_oldest_keeps_first.
Qed.

Lemma add_file_context_smartly_count_le (h : list Msg) (p c : string) :
  length (filter (λ m, is_file_context m = true)
            (add_file_context_smartly h p c DEFAULT_MAX_CONTEXT_FILES)) ≤ 5.
Proof.
  destruct (add_file_context_smartly_prefix h p c DEFAULT_MAX_CONTEXT_FILES)
    as (h2 & -> & _ & _ & Hcount); [done|].
  rewrite filter_app, length_app.
  rewrite (filter_cons_True _ (file_context_msg p c)) by done.
  cbn [filter list_filter length]. unfold DEFAULT_MAX_CONTEXT_FILES in Hcount. lia.
Qed.

(** X4. Adding a file context never touches the conversation proper: the
    user, assistant and tool entries are the same, in the same order, before
    and after; only system entries are removed or added. *)
Theorem add_file_context_smartly_keeps_conversation
    (h : list Msg) (p c : string) (max_context_files : Z) :
  filter (λ m, role m ≠ system) (add_file_context_smartly h p c max_context_files)
  = filter (λ m, role m ≠ system) h.
Proof. apply add_file_context_smartly_nonsystem. Qed.

(** X5. Adding a file that is in context already refreshes it: with a cap of
    at least one, adding the file again (with the same or a new content)
    gives the history that adding it once with that content gives, so a
    second add evicts no other file. *)
Theorem add_file_context_smartly_refresh
    (h : list Msg) (p c c' : string) (max_context_files : Z) :
  (1 ≤ max_context_files)%Z →
  add_file_context_smartly (add_file_context_smartly h p c max_context_files) p c'
    max_context_files
  = add_file_context_smartly h p c' max_context_files.
Proof.
  intros Hmax.
  destruct (add_file_context_smartly_prefix h p c max_context_files Hmax)
    as (h2 & -> & Hc' & Hnone & Hcount).
  rewrite Hc'. unfold add_file_context_smartly.
  rewrite filter_app.
  rewrite (filter_cons_False _ (file_context_msg p c))
    by (rewrite file_context_msg_is_context_of; done).
  rewrite filter_nil, app_nil_r.
  rewrite (filter_all _ h2 Hnone).
  by rewrite bool_decide_false by lia.
Qed.

Lemma add_file_context_smartly_refresh_witness :
  add_file_context_smartly (add_file_context_smartly [persona] "/a.py" "old" 5) "/a.py" "new" 5
  = add_file_context_smartly [persona] "/a.py" "new" 5.
Proof. apply (add_file_context_smartly_refresh [persona] "/a.py" "old" "new" 5). lia. Defined.

(** ** The assembler, position by position *)

Section AssemblerMore.

Implicit Types (chunks : list ToolCallChunk).

(** The highest position of a non-empty stream is the position of one of its
    fragments. *)
Lemma needed_attained chunks :
  needed chunks = 0 ∨ ∃ ch, ch ∈ chunks ∧ needed chunks = S (index ch).
Proof.
  induction chunks as [|ch chunks IH]; [by left|]. right. cbn [needed foldr].
  fold (needed chunks).
  destruct (decide (needed chunks ≤ S (index ch))) as [Hle|Hgt].
  - exists ch. split; [left | lia].
  - destruct IH as [H0|(ch' & Hin & Heq)]; [lia|].
    exists ch'. split; [by right | lia].
Qed.

Lemma needed_le_of_chunks_at chunks1 chunks2 :
  (∀ k, chunks_at k chunks1 = chunks_at k chunks2) → needed chunks1 ≤ needed chunks2.
Proof.
  intros Hat. destruct (needed_attained chunks1) as [->|(ch & Hin & ->)]; [lia|].
  apply needed_elem.
  assert (ch ∈ chunks_at (index ch) chunks1) as Hch
    by (apply list_elem_of_filter; done).
  rewrite Hat in Hch. by apply list_elem_of_filter in Hch as [_ Hch].
Qed.

Lemma accumulate_lookup chunks k :
  k < needed chunks →
  accumulate chunks !! k = Some (apply_chunks empty_tool_call (chunks_at k chunks)).
Proof.
  intros Hk.
  assert (k < length (accumulate chunks)) as Hlt
    by (unfold accumulate; rewrite length_foldl; cbn [length]; lia).
  apply lookup_lt_is_Some in Hlt as [d Hd]. rewrite Hd. f_equal.
  assert (view (accumulate chunks) k = d) as <- by (unfold view; by rewrite Hd).
  unfold accumulate. by rewrite view_foldl.
Qed.

End AssemblerMore.

(** X6. The assembled list has one entry for every position up to the highest
    index received, and the entry at a position is built from the fragments
    addressed to that position alone, applied in arrival order to the
    placeholder; a position that received no fragment holds the placeholder
    (empty id and name). *)
Theorem accumulate_by_position (chunks : list ToolCallChunk) :
  length (accumulate chunks) = needed chunks ∧
  (∀ k, k < needed chunks →
        accumulate chunks !! k = Some (apply_chunks empty_tool_call (chunks_at k chunks))) ∧
  (∀ k, k < needed chunks → chunks_at k chunks = [] →
        accumulate chunks !! k = Some empty_tool_call).
Proof.
  split; [|split].
  - unfold accumulate. rewrite length_foldl. cbn [length]. lia.
  - apply accumulate_lookup.
  - intros k Hk Hnone. rewrite accumulate_lookup by done. by rewrite Hnone.
Qed.

(** X7. The assembled list depends only on what each position receives, in
    which order: two streams whose fragments agree position by position
    assemble to the same list, however the positions interleave. *)
Theorem accumulate_interleaving_invariant (chunks1 chunks2 : list ToolCallChunk) :
  (∀ k, chunks_at k chunks1 = chunks_at k chunks2) →
  accumulate chunks1 = accumulate chunks2.
Proof.
  intros Hat.
  assert (needed chunks1 = needed chunks2) as Hneeded.
  { apply Nat.le_antisymm; apply needed_le_of_chunks_at; [done|]. intros k. by rewrite Hat. }
  assert (length (accumulate chunks1) = needed chunks1) as Hlen1
    by (unfold accumulate; rewrite length_foldl; cbn [length]; lia).
  assert (length (accumulate chunks2) = needed chunks2) as Hlen2
    by (unfold accumulate; rewrite length_foldl; cbn [length]; lia).
  apply list_eq. intros k. destruct (decide (k < needed chunks1)) as [Hk|Hk].
  - rewrite !accumulate_lookup by lia. by rewrite Hat.
  - rewrite !(lookup_ge_None_2 _ k) by lia. done.
Qed.

Lemma accumulate_interleaving_invariant_witness :
  let a1 := mkChunk 0 (Some "call_a") (Some (mkFunctionDelta (Some "read_file") (Some "{"))) in
  let a2 := mkChunk 0 None (Some (mkFunctionDelta None (Some "}"))) in
  let b1 := mkChunk 1 (Some "call_b") (Some (mkFunctionDelta (Some "git_status") (Some "{}"))) in
  accumulate [a1; b1; a2] = accumulate [b1; a1; a2].
Proof.
  intros a1 a2 b1. apply (accumulate_interleaving_invariant [a1; b1; a2] [b1; a1; a2]).
  intros [|[|k]]; reflexivity.
Defined.

(** ** The stream loop and the turn *)

Section StreamLoop.

Context {E : Env}.


End StreamLoop.


Section Turn.

Context {E : Env}.



End Turn.


(** ** Error answers of the dispatcher *)

(** Decides the comparisons of two operation names. *)
Ltac decide_names :=
  repeat match goal with
         | |- context [bool_decide (@eq string ?a ?b)] =>
             first [ rewrite (bool_decide_true (a = b)) by reflexivity
                   | rewrite (bool_decide_false (a = b)) by discriminate ]
         end;
  cbv beta iota.



(** X11. A file operation called without its required parameter answers
    "Error: Missing param for <name> (KeyError: '<key>')." and does nothing
    else than print one error line: no file is read or written and the
    history is as before. *)
Theorem execute_function_call_dict_missing_param `{E : Env}
    (tool_call_dict : ToolCall) (w : World) (key : string)
    (members : list (string * json)) :
  (name (function tool_call_dict), key)
    ∈ [("read_file", "file_path"); ("read_multiple_files", "file_paths");
       ("create_file", "file_path"); ("create_multiple_files", "files");
       ("edit_file", "file_path")] →
  json_loads (arguments (function tool_call_dict)) = Decoded (JObject members) →
  assoc key members = None →
  ∃ w', execute_function_call_dict tool_call_dict w
        = (Return ("Error: Missing param for " +:+ name (function tool_call_dict)
                   +:+ " (KeyError: '" +:+ key +:+ "')."), w') ∧
    files w' = files w ∧ git_context w' = git_context w ∧
    conversation_history w' = conversation_history w ∧
    processes w' = processes w ∧ keyboard w' = keyboard w ∧
    console w'
    = console w ++ ["[red]KeyError in " +:+ name (function tool_call_dict)
                    +:+ ": Missing key '" +:+ key +:+ "'[/red]"].
Proof.
  intros Hop Hdecode Hkey. unfold execute_function_call_dict. rewrite Hdecode.
  assert (dispatch (name (function tool_call_dict)) (JObject members) w
          = (Raise (mkExn KeyError ("'" +:+ key +:+ "'") EmptyString), w)) as Hraise.
  { repeat (apply elem_of_cons in Hop as [[= -> ->]|Hop]);
      [..|by apply elem_of_nil in Hop];
      unfold dispatch; decide_names;
      (apply bind_raise || (apply bind_raise, bind_raise));
      unfold subscript; rewrite Hkey; reflexivity. }
  erewrite try_except_raise; [|exact Hraise|reflexivity].
  cbn [exc_text]. rewrite !StrFacts.app_assoc.
  eexists. split; [reflexivity|]. repeat split.
Qed.

Lemma execute_function_call_dict_missing_param_witness :
  let E := example_env git_missing false in
  let d := mkToolCall "call_1" "function" (mkFunctionCall "create_file" "{}") in
  ∃ w', execute_function_call_dict d (initial_world ∅)
        = (Return "Error: Missing param for create_file (KeyError: 'file_path').", w') ∧
    files w' = ∅.
Proof.
  intros E d.
  destruct (execute_function_call_dict_missing_param (E:=E) d (initial_world ∅)
              "file_path" []) as (w' & Hrun & Hf & _).
  - apply (bool_decide_eq_true_1 _). reflexivity.
  - reflexivity.
  - reflexivity.
  - exists w'. split; [exact Hrun | exact Hf].
Defined.

(** X12. While git is disabled, the operations [git_add], [git_commit],
    [git_create_branch] and [git_status] answer "Git not initialized." and
    do nothing at all: no subprocess is started and nothing is printed. *)
Theorem execute_function_call_dict_git_not_initialized `{E : Env}
    (tool_call_dict : ToolCall) (w : World) (members : list (string * json)) :
  name (function tool_call_dict)
    ∈ ["git_add"; "git_commit"; "git_create_branch"; "git_status"] →
  json_loads (arguments (function tool_call_dict)) = Decoded (JObject members) →
  enabled (git_context w) = false →
  execute_function_call_dict tool_call_dict w = (Return "Git not initialized.", w).
Proof.
  intros Hop Hdecode Hdisabled. unfold execute_function_call_dict, try_except.
  rewrite Hdecode.
  assert (dispatch (name (function tool_call_dict)) (JObject members) w
          = (Return "Git not initialized.", w)) as ->; [|done].
  repeat (apply elem_of_cons in Hop as [->|Hop]); [..|by apply elem_of_nil in Hop];
    unfold dispatch; decide_names;
    unfold llm_git_add, llm_git_commit, llm_git_create_branch, llm_git_status, get_or;
    unfold_monad; cbn [fst snd]; rewrite Hdisabled; reflexivity.
Qed.

Lemma execute_function_call_dict_git_not_initialized_witness :
  let E := example_env git_missing false in
  let d := mkToolCall "call_1" "function" (mkFunctionCall "git_status" "{}") in
  execute_function_call_dict d (initial_world ∅)
  = (Return "Git not initialized.", initial_world ∅).
Proof.
  intros E d.
  apply (execute_function_call_dict_git_not_initialized (E:=E) d (initial_world ∅) []).
  - apply (bool_decide_eq_true_1 _). reflexivity.
  - reflexivity.
  - reflexivity.
Defined.

(** ** Files *)


Lemma ensure_file_in_context_missing_aux `{E : Env} (file_path : string) (w : World) :
  files w !! normalize_path (normalize_path file_path) = None →
  ∃ w', ensure_file_in_context file_path w = (Return false, w') ∧
    conversation_history w' = conversation_history w ∧
    files w' = files w ∧ git_context w' = git_context w ∧
    processes w' = processes w.
Proof.
  intros Hnone. unfold ensure_file_in_context.
  erewrite try_except_raise;
    [|apply bind_raise; unfold read_local_file; rewrite Hnone; reflexivity|reflexivity].
  eexists. split; [reflexivity|]. repeat split.
Qed.

(** X14. [ensure_file_in_context] on a file that exists returns [True], and
    afterwards the history has a system entry with the marker of the file.
    When such an entry was there already, nothing changes at all; the file
    is not added twice. *)
Theorem ensure_file_in_context_present `{E : Env}
    (file_path file_content : string) (w : World) :
  files w !! normalize_path (normalize_path file_path) = Some file_content →
  ∃ w', ensure_file_in_context file_path w = (Return true, w') ∧
    existsb (is_context_of (normalize_path file_path)) (conversation_history w') = true ∧
    files w' = files w ∧ git_context w' = git_context w ∧
    console w' = console w ∧ processes w' = processes w ∧
    (existsb (is_context_of (normalize_path file_path)) (conversation_history w) = true →
     w' = w).
Proof.
  intros Hsome. unfold ensure_file_in_context, try_except.
  erewrite bind_return; [|unfold read_local_file; rewrite Hsome; reflexivity].
  erewrite bind_return by reflexivity.
  destruct (existsb (is_context_of (normalize_path file_path)) (conversation_history w))
    eqn:Hin; cbn [negb].
  - exists w. by repeat split.
  - unfold_monad. cbn [fst snd]. eexists. split; [reflexivity|].
    cbn [conversation_history files git_context console processes].
    repeat split; [|done].
    unfold add_file_context_smartly. rewrite existsb_app.
    cbn [existsb]. rewrite file_context_msg_is_context_of. cbn [orb].
    apply orb_true_r.
Qed.

Lemma ensure_file_in_context_present_witness :
  let E := example_env git_missing false in
  let w := initial_world {["/repo/notes.txt" := "hello"]} in
  ∃ w', ensure_file_in_context "/repo/notes.txt" w = (Return true, w') ∧
    existsb (is_context_of "/repo/notes.txt") (conversation_history w') = true.
Proof.
  intros E w.
  destruct (ensure_file_in_context_present (E:=E) "/repo/notes.txt" "hello" w)
    as (w' & Hrun & Hin & _); [reflexivity|].
  exists w'. split; [exact Hrun | exact Hin].
Defined.

(** X15. [edit_file] on a file that cannot be read gives up before any edit
    is tried: the answer is "Error: Could not read '<path>' for editing.", a
    line is printed, and the files, the history and the git state are as
    before, whatever the snippets are, even when they are missing. *)
Theorem execute_function_call_dict_edit_missing_file `{E : Env}
    (tool_call_dict : ToolCall) (w : World) (members : list (string * json))
    (file_path : string) :
  name (function tool_call_dict) = "edit_file" →
  json_loads (arguments (function tool_call_dict)) = Decoded (JObject members) →
  assoc "file_path" members = Some (JString file_path) →
  files w !! normalize_path (normalize_path file_path) = None →
  ∃ w', execute_function_call_dict tool_call_dict w
        = (Return ("Error: Could not read '" +:+ file_path +:+ "' for editing."), w') ∧
    files w' = files w ∧ conversation_history w' = conversation_history w ∧
    git_context w' = git_context w ∧ processes w' = processes w.
Proof.
  intros Hname Hdecode Hkey Hnone.
  destruct (ensure_file_in_context_missing_aux file_path w Hnone)
    as (w' & Hrun & Hh & Hf & Hg & Hp).
  exists w'. split; [|done].
  unfold execute_function_call_dict, try_except. rewrite Hdecode, Hname.
  unfold dispatch. decide_names.
  erewrite bind_return by (unfold subscript; rewrite Hkey; reflexivity).
  erewrite bind_return by reflexivity.
  erewrite bind_return by exact Hrun. reflexivity.
Qed.

Lemma execute_function_call_dict_edit_missing_file_witness :
  let E := example_env git_missing false in
  let d := mkToolCall "call_1" "function"
             (mkFunctionCall "edit_file"
                ("{" +:+ quoted "file_path" +:+ ": " +:+ quoted "notes.txt" +:+ "}")) in
  ∃ w', execute_function_call_dict d (initial_world ∅)
        = (Return "Error: Could not read 'notes.txt' for editing.", w') ∧
    files w' = ∅ ∧ conversation_history w' = [persona].
Proof.
  intros E d.
  destruct (execute_function_call_dict_edit_missing_file (E:=E) d (initial_world ∅)
              [("file_path", JString "notes.txt")] "notes.txt")
    as (w' & Hrun & Hf & Hh & _); [reflexivity..|].
  exists w'. split; [exact Hrun|]. split; [exact Hf | exact Hh].
Defined.

(** X16. [read_file] answers with the content of the file at the resolved
    path and changes nothing, not even the console; when the file does not
    exist the answer is the "Unexpected error" text with the message of the
    operating system, and only the console changes. *)
Theorem execute_function_call_dict_read_file `{E : Env}
    (tool_call_dict : ToolCall) (w : World) (members : list (string * json))
    (file_path : string) :
  name (function tool_call_dict) = "read_file" →
  json_loads (arguments (function tool_call_dict)) = Decoded (JObject members) →
  assoc "file_path" members = Some (JString file_path) →
  let norm_path := normalize_path file_path in
  (∀ file_content, files w !! normalize_path norm_path = Some file_content →
     execute_function_call_dict tool_call_dict w
     = (Return ("Content of file '" +:+ norm_path +:+ "':" +:+ LF +:+ LF +:+ file_content),
        w)) ∧
  (files w !! normalize_path norm_path = None →
     ∃ w', execute_function_call_dict tool_call_dict w
           = (Return ("Unexpected error in read_file: [Errno 2] No such file or directory: '"
                      +:+ normalize_path norm_path +:+ "'"), w') ∧
       files w' = files w ∧ conversation_history w' = conversation_history w ∧
       git_context w' = git_context w ∧ processes w' = processes w).
Proof.
  intros Hname Hdecode Hkey norm_path.
  unfold execute_function_call_dict. rewrite Hdecode, Hname.
  assert (∀ A (k : string → M A),
            ((subscript (JObject members) "file_path" ≫= as_str) ≫= k) w = k file_path w)
    as Hargs.
  { intros A k. erewrite bind_return; [reflexivity|].
    erewrite bind_return by (unfold subscript; rewrite Hkey; reflexivity). reflexivity. }
  split.
  - intros file_content Hsome. unfold try_except, dispatch. decide_names.
    rewrite Hargs. fold norm_path.
    erewrite bind_return by (unfold read_local_file; rewrite Hsome; reflexivity).
    reflexivity.
  - intros Hnone.
    erewrite try_except_raise;
      [|unfold dispatch; decide_names; rewrite Hargs; fold norm_path;
        apply bind_raise; unfold read_local_file; rewrite Hnone; reflexivity
       |reflexivity].
    eexists. split; [reflexivity|]. repeat split.
Qed.

Lemma execute_function_call_dict_read_file_witness :
  let E := example_env git_missing false in
  let d := mkToolCall "call_1" "function"
             (mkFunctionCall "read_file"
                ("{" +:+ quoted "file_path" +:+ ": " +:+ quoted "notes.txt" +:+ "}")) in
  let w := initial_world {["notes.txt" := "hello"]} in
  execute_function_call_dict d w
  = (Return ("Content of file 'notes.txt':" +:+ LF +:+ LF +:+ "hello"), w).
Proof.
  intros E d w.
  apply (execute_function_call_dict_read_file (E:=E) d w
           [("file_path", JString "notes.txt")] "notes.txt");
    reflexivity.
Defined.

(** ** Staging *)

(** X17. [stage_file] never raises and starts at most one subprocess, [git
    add] of the path relative to the working directory; it never changes the
    files, the git state or the history. While git is disabled, or staging is
    switched off, it returns [False] and does nothing at all. *)
Theorem stage_file_contained `{E : Env} (file_path_str : string) (w : World) :
  (∃ b w', stage_file file_path_str w = (Return b, w') ∧
     files w' = files w ∧ git_context w' = git_context w ∧
     conversation_history w' = conversation_history w ∧ keyboard w' = keyboard w ∧
     (processes w' = processes w ∨
      ∃ rel_path, relative_to_cwd file_path_str = Some rel_path ∧
                  processes w' = processes w ++ [["git"; "add"; rel_path]])) ∧
  (enabled (git_context w) = false ∨ skip_staging (git_context w) = true →
   stage_file file_path_str w = (Return false, w)).
Proof.
  split.
  - unfold stage_file, subprocess_run. unfold_monad. cbn.
    destruct (negb (enabled (git_context w)) || skip_staging (git_context w));
      [exists false, w; by repeat split; try left|].
    destruct (relative_to_cwd file_path_str) as [rel|]; cbn.
    + destruct (run_process w _) as [|rc out err]; cbn.
      * do 2 eexists. split; [reflexivity|]. cbn. repeat split. right. by exists rel.
      * case_bool_decide; cbn; do 2 eexists; (split; [reflexivity|]); cbn;
          repeat split; right; by exists rel.
    + do 2 eexists. split; [reflexivity|]. cbn. repeat split. by left.
  - intros Hoff. unfold stage_file. unfold_monad. cbn.
    destruct Hoff as [->| ->]; [done|]. by rewrite orb_true_r.
Qed.

(** ** Git operations of the model *)

(** X18. With git enabled, a non-empty message and staged changes, a commit
    that succeeds makes [llm_git_commit] answer "Committed. Commit: <hash and
    subject>"; it has run exactly three git commands, the staged-changes
    check, the commit with the message as given, and the log, and has changed
    nothing else. *)
Theorem llm_git_commit_commits `{E : Env}
    (message : string) (w : World) (rc rc' : Z) (o1 e1 o2 e2 info e3 : string) :
  enabled (git_context w) = true →
  message ≠ EmptyString →
  rc ≠ 0%Z →
  let check := ["git"; "diff"; "--staged"; "--quiet"] in
  let commit := ["git"; "commit"; "-m"; message] in
  let log := ["git"; "log"; "-1"; "--pretty=%h %s"] in
  run_process w check = Completed rc o1 e1 →
  run_process (logged check w) commit = Completed 0 o2 e2 →
  run_process (logged commit (logged check w)) log = Completed rc' info e3 →
  ∃ w', llm_git_commit (JString message) w
        = (Return ("Committed. Commit: " +:+ Str.strip info), w') ∧
    processes w' = processes w ++ [check; commit; log] ∧
    git_context w' = git_context w ∧ files w' = files w ∧
    conversation_history w' = conversation_history w ∧ console w' = console w.
Proof.
  intros Henabled Hmessage Hrc check commit log Hcheck Hcommit Hlog.
  unfold llm_git_commit. erewrite bind_return by reflexivity.
  rewrite Henabled. cbn [negb py_truthy]. rewrite bool_decide_false by done. cbn [negb].
  unfold try_except.
  erewrite bind_return by (unfold subprocess_run; fold check; rewrite Hcheck; reflexivity).
  cbv beta iota. rewrite bool_decide_false by done.
  erewrite bind_return by reflexivity.
  erewrite bind_return
    by (unfold subprocess_run; fold commit; fold (logged check w); rewrite Hcommit;
        reflexivity).
  cbv beta iota. rewrite bool_decide_true by done.
  erewrite bind_return
    by (unfold subprocess_run; fold log; fold (logged commit (logged check w));
        rewrite Hlog; reflexivity).
  cbv beta iota. eexists. split; [reflexivity|]. cbn.
  rewrite <- !(assoc_L (++)). by repeat split.
Qed.

Lemma llm_git_commit_commits_witness :
  let E := example_env git_with_staged_changes true in
  ∃ w', llm_git_commit (JString "fix") (repo_world ∅)
        = (Return "Committed. Commit: abc1234 fix", w') ∧
    processes w' = [["git"; "diff"; "--staged"; "--quiet"]; ["git"; "commit"; "-m"; "fix"];
                    ["git"; "log"; "-1"; "--pretty=%h %s"]].
Proof.
  intros E.
  destruct (llm_git_commit_commits (E:=E) "fix" (repo_world ∅) 1 0
              EmptyString EmptyString EmptyString EmptyString
              ("abc1234 fix" +:+ LF) EmptyString)
    as (w' & Hrun & Hp & _); [reflexivity|discriminate|discriminate|reflexivity..|].
  exists w'. split; [exact Hrun | exact Hp].
Defined.



(** X20. The three groups of [llm_git_status] partition the changed files:
    every entry of the porcelain listing lands in exactly one of staged,
    unstaged and untracked, and the untracked group is exactly the files with
    code [??], in listing order. *)
Theorem group_changes_partition (changed : list (string * string)) :
  let '(staged, unstaged, untracked) := group_changes changed in
  length staged + length unstaged + length untracked = length changed ∧
  untracked = map snd (filter (λ e, e.1 = "??") changed).
Proof.
  induction changed as [|[code filename] rest IH]; [done|].
  cbn [group_changes]. destruct (group_changes rest) as [[staged unstaged] untracked].
  destruct IH as [Hlen Hun]. rewrite (filter_cons _ (code, filename) rest). cbn [fst].
  case_bool_decide as Hcode.
  - rewrite decide_True by done. cbn [length map snd]. split; [lia | by f_equal].
  - rewrite decide_False by done.
    destruct (Str.startswith " " code); cbn [length]; split; (lia || done).
Qed.

(** ** Git commands of the user *)

(** X21. [/git status] lets a missing git executable escape: with git enabled
    and no executable, the status lookup switches git off, and the lookup of
    the branch that follows, which is outside any [try], raises
    [FileNotFoundError] out of [show_git_status_cmd]. *)
Theorem show_git_status_cmd_raises_without_git `{E : Env} (w : World) :
  (∀ w0 argv, run_process w0 argv = ExecutableNotFound) →
  enabled (git_context w) = true →
  ∃ e w', show_git_status_cmd w = (Raise e, w') ∧
    exc_class e = FileNotFoundError ∧
    enabled (git_context w') = false ∧
    processes w' = processes w ++ [["git"; "status"; "--porcelain"];
                                   ["git"; "branch"; "--show-current"]].
Proof.
  intros Habsent Henabled.
  unfold show_git_status_cmd. erewrite bind_return by reflexivity.
  rewrite Henabled. cbn [negb].
  erewrite bind_return.
  2:{ unfold get_git_status_porcelain. erewrite bind_return by reflexivity.
      rewrite Henabled. cbn [negb].
      erewrite try_except_raise;
        [|apply bind_raise; unfold subprocess_run; rewrite Habsent; reflexivity
         |reflexivity].
      reflexivity. }
  cbv beta iota.
  erewrite bind_raise by (unfold subprocess_run; rewrite Habsent; reflexivity).
  do 2 eexists. split; [reflexivity|]. cbn. rewrite <- !(assoc_L (++)). by repeat split.
Qed.

Lemma show_git_status_cmd_raises_without_git_witness :
  let E := example_env git_missing true in
  ∃ e w', show_git_status_cmd (repo_world ∅) = (Raise e, w') ∧
    exc_class e = FileNotFoundError ∧ enabled (git_context w') = false.
Proof.
  intros E.
  destruct (show_git_status_cmd_raises_without_git (E:=E) (repo_world ∅))
    as (e & w' & Hrun & He & Hg & _); [reflexivity|reflexivity|].
  exists e, w'. split; [exact Hrun|]. split; [exact He | exact Hg].
Defined.

(** ** The porcelain listing *)

Module StripFacts.

Lemma rev_app_spec (s1 s2 : string) : String.rev_app s1 s2 = String.rev s1 +:+ s2.
Proof.
  revert s2. induction s1 as [|a s1 IH]; intros s2; [done|].
  unfold String.rev. cbn [String.rev_app]. rewrite (IH (String a s2)), (IH (String a EmptyString)).
  by rewrite StrFacts.app_assoc, StrFacts.app_cons, StrFacts.app_empty_l.
Qed.

Lemma rev_app_app (u v t : string) :
  String.rev_app (u +:+ v) t = String.rev_app v (String.rev_app u t).
Proof.
  revert t. induction u as [|a u IH]; intros t.
  - by rewrite StrFacts.app_empty_l.
  - rewrite StrFacts.app_cons. cbn [String.rev_app]. apply IH.
Qed.

Lemma lstrip_head (s : string) (a : ascii) (r : string) :
  Str.lstrip s = String a r → Str.is_whitespace a = false.
Proof.
  induction s as [|c s IH]; [done|]. cbn [Str.lstrip].
  destruct (Str.is_whitespace c) eqn:Hc; [exact IH|]. by intros [= <- _].
Qed.

Lemma lstrip_snoc (z : string) (b : ascii) :
  Str.is_whitespace b = false →
  Str.lstrip (z +:+ String b EmptyString) = Str.lstrip z +:+ String b EmptyString.
Proof.
  intros Hb. induction z as [|c z IH].
  - rewrite !StrFacts.app_empty_l. cbn [Str.lstrip]. by rewrite Hb.
  - rewrite StrFacts.app_cons. cbn [Str.lstrip].
    destruct (Str.is_whitespace c); [exact IH|]. by rewrite StrFacts.app_cons.
Qed.

(** A stripped text does not start with a whitespace character. *)
Lemma strip_head (s : string) (a : ascii) (r : string) :
  Str.strip s = String a r → Str.is_whitespace a = false.
Proof.
  unfold Str.strip. destruct (Str.lstrip s) as [|b y] eqn:Hy; [done|].
  pose proof (lstrip_head s b y Hy) as Hb.
  unfold String.rev at 2. cbn [String.rev_app]. rewrite rev_app_spec.
  rewrite (lstrip_snoc _ b Hb). unfold String.rev. rewrite rev_app_app.
  cbn [String.rev_app]. by intros [= <- _].
Qed.

(** The pieces of a text that starts with a character other than the
    separator: the first piece is not empty. *)
Lemma split_head (sep a : ascii) (r : string) :
  a ≠ sep →
  filter (λ piece, piece ≠ EmptyString) (Str.split sep (String a r)) ≠ [].
Proof.
  intros Ha. cbn [Str.split]. rewrite decide_False by done.
  destruct (Str.split sep r) as [|p ps]; by rewrite filter_cons_True.
Qed.

End StripFacts.

(** X22. [get_git_status_porcelain] never raises, and its flag agrees with
    its list: it reports changes exactly when the list of changed files is
    not empty. It changes neither the files nor the history. *)
Theorem get_git_status_porcelain_flag_agrees `{E : Env} (w : World) :
  ∃ has_changes changed w',
    get_git_status_porcelain w = (Return (has_changes, changed), w') ∧
    has_changes = bool_decide (changed ≠ []) ∧
    files w' = files w ∧ conversation_history w' = conversation_history w.
Proof.
  unfold get_git_status_porcelain. erewrite bind_return by reflexivity.
  destruct (enabled (git_context w)); cbn [negb];
    [|by exists false, [], w].
  unfold try_except, subprocess_run. unfold_monad. cbn [fst snd].
  destruct (run_process w _) as [|rc out err]; [by eexists false, [], _|].
  cbn [andb negb]. case_bool_decide as Hrc; cbn [negb]; [|by eexists false, [], _].
  case_bool_decide as Hblank; [by eexists false, [], _|].
  eexists true, _, _. split; [reflexivity|]. split; [|done].
  symmetry. apply bool_decide_eq_true.
  destruct (Str.strip out) as [|a r] eqn:Hstrip; [done|].
  intros Hnil%fmap_nil_inv. revert Hnil. apply StripFacts.split_head.
  intros ->. apply StripFacts.strip_head in Hstrip. vm_compute in Hstrip. discriminate.
Qed.

(** X23. The listing is split into lines after it has been stripped as a
    whole, so the first line has lost its leading blanks: the status code of
    the first changed file never starts with a space. An unstaged change
    (code [ M]) that git lists first is therefore reported with the code
    [M ] of a staged one, and its path without its first character. *)
Theorem get_git_status_porcelain_first_code `{E : Env}
    (w w' : World) (has_changes : bool) (code filename : string)
    (rest : list (string * string)) :
  get_git_status_porcelain w = (Return (has_changes, (code, filename) :: rest), w') →
  Str.startswith " " code = false.
Proof.
  unfold get_git_status_porcelain. erewrite bind_return by reflexivity.
  destruct (enabled (git_context w)); cbn [negb]; [|done].
  unfold try_except, subprocess_run. unfold_monad. cbn [fst snd].
  destruct (run_process w _) as [|rc out err]; [done|].
  cbn [andb negb]. case_bool_decide as Hrc; cbn [negb]; [|done].
  case_bool_decide as Hblank; [done|].
  destruct (Str.strip out) as [|a r] eqn:Hstrip; [done|].
  pose proof (StripFacts.strip_head _ _ _ Hstrip) as Ha.
  cbn [Str.split]. rewrite decide_False by (intros ->; vm_compute in Ha; discriminate).
  intros [= _ Hlist _].
  assert (∃ p, code = Str.take 2 (String a p)) as [p ->].
  { apply (f_equal head) in Hlist.
    destruct (Str.split "010" r) as [|p ps]; [exists EmptyString | exists p];
      rewrite filter_cons_True in Hlist by done;
      cbn [head fmap list_fmap map] in Hlist; unfold porcelain_entry in Hlist;
      injection Hlist as Hcode _; rewrite <- Hcode; reflexivity. }
  cbn [Str.take Str.startswith]. rewrite decide_False; [done|].
  intros <-. vm_compute in Ha. discriminate.
Qed.

Lemma get_git_status_porcelain_first_code_witness :
  let E := example_env git_unstaged_change true in
  (get_git_status_porcelain (repo_world ∅)).1 = Return (true, [("M ", "otes.txt")]) ∧
  Str.startswith " " "M " = false.
Proof.
  intros E. split; [reflexivity|].
  apply (get_git_status_porcelain_first_code (E:=E) (repo_world ∅)
           (logged ["git"; "status"; "--porcelain"] (repo_world ∅)) true "M " "otes.txt" []).
  reflexivity.
Defined.

(** ** Scanning a directory *)

Section Scan.

Context {E : Env}.

Variable directories : string → option DirTree.
Variable py_list_repr : list string → string.

Lemma only_context_changed_refl (w : World) : only_context_changed w w.
Proof. unfold only_context_changed. repeat split; try done. lia. Qed.

Lemma only_context_changed_trans (w1 w2 w3 : World) :
  only_context_changed w1 w2 → only_context_changed w2 w3 → only_context_changed w1 w3.
Proof.
  intros (Hf1 & Hg1 & Hp1 & Hk1 & Hn1 & Hc1 & Hh1) (Hf2 & Hg2 & Hp2 & Hk2 & Hn2 & Hc2 & Hh2).
  unfold only_context_changed. repeat split; try congruence; [lia|].
  intros first Hhead Hfirst. apply Hh2; [by apply Hh1 | done].
Qed.

Lemma only_context_changed_print (text : string) (w : World) :
  only_context_changed w (console_print text w).2.
Proof. unfold only_context_changed. cbn. repeat split; try done. lia. Qed.

Lemma only_context_changed_add (p c : string) (w : World) :
  only_context_changed w
    (set_conversation_history
       (add_file_context_smartly (conversation_history w) p c DEFAULT_MAX_CONTEXT_FILES) w).2.
Proof.
  unfold only_context_changed. cbn. repeat split.
  - apply add_file_context_smartly_nonsystem.
  - pose proof (add_file_context_smartly_count_le (conversation_history w) p c). lia.
  - intros first. apply add_file_context_smartly_keeps_first.
Qed.

Lemma try_except_return {A} (body : M A) handler w a w1 :
  body w = (Return a, w1) → try_except body handler w = (Return a, w1).
Proof. intros Hb. unfold try_except. by rewrite Hb. Qed.

(** One file of the scan: it is skipped, or its resolved path is added. *)
Lemma add_file_in_dir_spec (full_path : string)
    (skipped added : list string) (total_processed : nat) (w : World) :
  ∃ skipped' new w',
    add_file_in_dir full_path (skipped, added, total_processed) w
    = (Return (skipped', added ++ new, total_processed + length new), w') ∧
    only_context_changed w w' ∧ console w' = console w ∧
    (new = [] ∨ new = [normalize_path full_path]).
Proof.
  unfold add_file_in_dir.
  assert (∀ skipped' w',
            w' = w →
            ∃ skipped'' new w'',
              (@Return (list string * list string * nat)
                 (skipped', added, total_processed), w')
              = (Return (skipped'', added ++ new, total_processed + length new), w'') ∧
              only_context_changed w w'' ∧ console w'' = console w ∧
              (new = [] ∨ new = [normalize_path full_path])) as Hskip.
  { intros skipped' w' ->. exists skipped', [], w. rewrite app_nil_r, Nat.add_0_r.
    split; [done|]. split; [apply only_context_changed_refl|]. split; [done | by left]. }
  destruct (files w !! normalize_path full_path) as [text|] eqn:Hfile.
  - assert (getsize full_path w = (Return (Z.of_nat (String.length text)), w)) as Hsize
      by (unfold getsize; by rewrite Hfile).
    destruct (decide (MAX_FILE_SIZE_IN_ADD_DIR < Z.of_nat (String.length text))%Z)
      as [Hbig|Hbig].
    { erewrite try_except_return; [by apply Hskip|].
      erewrite bind_return by exact Hsize. rewrite bool_decide_true by done. reflexivity. }
    assert (∃ b, is_binary_file full_path w = (Return b, w)) as [b Hbin]
      by (unfold is_binary_file; rewrite Hfile; by eexists).
    destruct b.
    { erewrite try_except_return; [by apply Hskip|].
      erewrite bind_return by exact Hsize. rewrite bool_decide_false by done.
      erewrite bind_return by exact Hbin. reflexivity. }
    destruct (files w !! normalize_path (normalize_path full_path)) as [file_content|]
      eqn:Hread.
    + erewrite try_except_return.
      2:{ erewrite bind_return by exact Hsize. rewrite bool_decide_false by done.
          erewrite bind_return by exact Hbin. cbv beta iota.
          erewrite bind_return by (unfold read_local_file; rewrite Hread; reflexivity).
          erewrite bind_return by reflexivity.
          erewrite bind_return by reflexivity. reflexivity. }
      exists skipped, [normalize_path full_path]. eexists. cbn [length].
      rewrite Nat.add_1_r. split; [reflexivity|].
      split; [apply (only_context_changed_add (normalize_path full_path) file_content w)|].
      split; [done | by right].
    + erewrite try_except_raise;
        [|erewrite bind_return by exact Hsize; rewrite bool_decide_false by done;
          erewrite bind_return by exact Hbin; cbv beta iota;
          apply bind_raise; unfold read_local_file; rewrite Hread; reflexivity
         |reflexivity].
      by apply Hskip.
  - erewrite try_except_raise;
      [|apply bind_raise; unfold getsize; rewrite Hfile; reflexivity|reflexivity].
    by apply Hskip.
Qed.

(** The files of one directory. *)
Lemma add_files_loop_spec (root : string) (file_names : list string) :
  ∀ (skipped added : list string) (total_processed : nat) (w : World),
  ∃ skipped' new w',
    add_files_loop root file_names (skipped, added, total_processed) w
    = (Return (skipped', added ++ new, total_processed + length new), w') ∧
    only_context_changed w w' ∧ console w' = console w ∧
    Forall (λ p, ∃ file, file ∈ file_names ∧ skip_name file = false ∧
                         p = normalize_path (path_join root file)) new ∧
    (total_processed ≤ MAX_FILES_IN_ADD_DIR →
     total_processed + length new ≤ MAX_FILES_IN_ADD_DIR).
Proof.
  induction file_names as [|file rest IH]; intros skipped added total_processed w.
  - exists skipped, [], w. cbn. rewrite app_nil_r, Nat.add_0_r.
    split; [done|]. split; [apply only_context_changed_refl|]. by repeat split.
  - cbn [add_files_loop]. case_bool_decide as Hfull.
    { exists skipped, [], w. cbn. rewrite app_nil_r, Nat.add_0_r.
      split; [done|]. split; [apply only_context_changed_refl|]. by repeat split. }
    destruct (skip_name file) eqn:Hskip.
    { destruct (IH (skipped ++ [path_join root file]) added total_processed w)
        as (skipped' & new & w' & Hrun & Hctx & Hcon & Hnew & Hmax).
      exists skipped', new, w'. split; [exact Hrun|]. split; [exact Hctx|].
      split; [exact Hcon|]. split; [|exact Hmax].
      eapply Forall_impl; [exact Hnew|]. intros p (f & Hf & Hs & Hp).
      exists f. split; [by right | done]. }
    destruct (add_file_in_dir_spec (path_join root file) skipped added total_processed w)
      as (skipped1 & new1 & w1 & Hrun1 & Hctx1 & Hcon1 & Hnew1).
    erewrite bind_return by exact Hrun1.
    destruct (IH skipped1 (added ++ new1) (total_processed + length new1) w1)
      as (skipped2 & new2 & w2 & Hrun2 & Hctx2 & Hcon2 & Hnew2 & Hmax2).
    exists skipped2, (new1 ++ new2), w2.
    rewrite Hrun2, length_app, (assoc_L (++)), Nat.add_assoc.
    split; [done|]. split; [by eapply only_context_changed_trans|].
    split; [congruence|]. split.
    + apply Forall_app. split.
      * destruct Hnew1 as [->| ->]; [constructor|].
        constructor; [|constructor]. exists file. split; [left | done].
      * eapply Forall_impl; [exact Hnew2|]. intros p (f & Hf & Hs & Hp).
        exists f. split; [by right | done].
    + intros _. rewrite <- Nat.add_assoc. rewrite Nat.add_assoc. apply Hmax2.
      destruct Hnew1 as [->| ->]; cbn [length]; lia.
Qed.

(** The directories of the walk. *)
Lemma add_dirs_loop_spec (walked : list (string * list string)) :
  ∀ (skipped added : list string) (total_processed : nat) (w : World),
  ∃ skipped' new w',
    add_dirs_loop walked (skipped, added, total_processed) w
    = (Return (skipped', added ++ new, total_processed + length new), w') ∧
    only_context_changed w w' ∧
    Forall (scanned_file walked) new ∧
    (total_processed ≤ MAX_FILES_IN_ADD_DIR →
     total_processed + length new ≤ MAX_FILES_IN_ADD_DIR).
Proof.
  induction walked as [|[root file_names] rest IH]; intros skipped added total_processed w.
  - exists skipped, [], w. cbn. rewrite app_nil_r, Nat.add_0_r.
    split; [done|]. split; [apply only_context_changed_refl|]. by repeat split.
  - cbn [add_dirs_loop]. case_bool_decide as Hfull.
    { eexists skipped, [], _. rewrite app_nil_r, Nat.add_0_r.
      split; [reflexivity|]. split; [apply only_context_changed_print|]. by repeat split. }
    destruct (add_files_loop_spec root file_names skipped added total_processed w)
      as (skipped1 & new1 & w1 & Hrun1 & Hctx1 & _ & Hnew1 & Hmax1).
    erewrite bind_return by exact Hrun1.
    destruct (IH skipped1 (added ++ new1) (total_processed + length new1) w1)
      as (skipped2 & new2 & w2 & Hrun2 & Hctx2 & Hnew2 & Hmax2).
    exists skipped2, (new1 ++ new2), w2.
    rewrite Hrun2, length_app, (assoc_L (++)), Nat.add_assoc.
    split; [done|]. split; [by eapply only_context_changed_trans|]. split.
    + apply Forall_app. split.
      * eapply Forall_impl; [exact Hnew1|]. intros p (f & Hf & Hs & Hp).
        exists root, file_names, f. split; [left | done].
      * eapply Forall_impl; [exact Hnew2|]. intros p (r & fs & f & Hin & Hf & Hs & Hp).
        exists r, fs, f. split; [by right | done].
    + intros Hle. apply Hmax2. apply Hmax1. exact Hle.
Qed.

End Scan.

(** X24. Scanning a directory into the conversation never raises and changes
    nothing but the console and the system entries of the history: no file is
    written, no subprocess started, the git state is untouched, the user,
    assistant and tool entries stay as they are, a first system entry that is
    no file context stays first, and at most five file contexts remain,
    however many files the directory has (unless more were there before). *)
Theorem add_directory_to_conversation_contained `{E : Env}
    (directories : string → option DirTree) (py_list_repr : list string → string)
    (directory_path : string) (w : World) :
  ∃ w', add_directory_to_conversation directories py_list_repr directory_path w
        = (Return (), w') ∧
    files w' = files w ∧ git_context w' = git_context w ∧
    processes w' = processes w ∧ keyboard w' = keyboard w ∧
    filter (λ m, role m ≠ system) (conversation_history w')
    = filter (λ m, role m ≠ system) (conversation_history w) ∧
    length (filter (λ m, is_file_context m = true) (conversation_history w'))
    ≤ length (filter (λ m, is_file_context m = true) (conversation_history w)) `max` 5 ∧
    (∀ first, head (filter (λ m, role m = system) (conversation_history w)) = Some first →
              is_file_context first = false →
              head (filter (λ m, role m = system) (conversation_history w')) = Some first).
Proof.
  unfold add_directory_to_conversation.
  match goal with |- context [add_dirs_loop ?walked] =>
    destruct (add_dirs_loop_spec walked [] [] 0 w)
      as (skipped & new & w1 & Hrun & Hctx & _) end.
  erewrite bind_return by exact Hrun. cbv beta iota.
  assert (∀ (b : bool) (text : string) (w0 : World),
            ∃ w0', (if b then console_print text else mret ()) w0 = (Return (), w0') ∧
                   only_context_changed w0 w0') as Hprint.
  { intros [] text w0.
    - eexists. split; [reflexivity|]. apply (only_context_changed_print text w0).
    - exists w0. split; [reflexivity|]. apply only_context_changed_refl. }
  match goal with |- context [(console_print ?t ≫= _) w1] =>
    destruct (Hprint true t w1) as (w2 & Hrun2 & Hctx2) end.
  erewrite bind_return by exact Hrun2.
  match goal with |- context [((if ?b then console_print ?t else mret ()) ≫= _) w2] =>
    destruct (Hprint b t w2) as (w3 & Hrun3 & Hctx3) end.
  erewrite bind_return by exact Hrun3.
  match goal with |- context [((if ?b then console_print ?t else mret ()) ≫= _) w3] =>
    destruct (Hprint b t w3) as (w4 & Hrun4 & Hctx4) end.
  erewrite bind_return by exact Hrun4.
  eexists. split; [reflexivity|].
  eapply only_context_changed_trans; [exact Hctx|].
  eapply only_context_changed_trans; [exact Hctx2|].
  eapply only_context_changed_trans; [exact Hctx3|].
  eapply only_context_changed_trans; [exact Hctx4|].
  apply only_context_changed_print.
Qed.

(** X25. The paths that a scan adds are resolved paths of files found in the
    directories walked whose names are not skipped (no hidden file, no
    excluded name, no excluded extension); every added file is counted, and
    never more than [MAX_FILES_IN_ADD_DIR] files are added. *)
Theorem add_dirs_loop_adds_scanned_files `{E : Env}
    (walked : list (string * list string)) (w : World) :
  ∃ skipped added w',
    add_dirs_loop walked ([], [], 0) w = (Return (skipped, added, length added), w') ∧
    Forall (scanned_file walked) added ∧
    length added ≤ MAX_FILES_IN_ADD_DIR.
Proof.
  destruct (add_dirs_loop_spec walked [] [] 0 w)
    as (skipped & new & w' & Hrun & _ & Hnew & Hmax).
  exists skipped, new, w'. split; [exact Hrun|]. split; [exact Hnew|].
  apply Hmax. unfold MAX_FILES_IN_ADD_DIR. lia.
Qed.

(** ** Extensions *)

Module ExtFacts.

(** From the last occurrence of [c] on, the text is [c] and a rest without
    [c]. *)
Lemma rfind_spec (c : ascii) (s : string) :
  rfind c s = (-1)%Z ∨
  (0 ≤ rfind c s)%Z ∧
  ∃ rest, Str.drop (Z.to_nat (rfind c s)) s = String c rest ∧ rfind c rest = (-1)%Z.
Proof.
  induction s as [|a s IH]; [by left|]. cbn [rfind].
  destruct (decide (rfind c s = -1)%Z) as [Hnone|Hsome].
  - destruct (decide (a = c)) as [->|]; [|by left].
    right. split; [lia|]. by exists s.
  - right. destruct IH as [?|(Hpos & rest & Hdrop & Hrest)]; [done|].
    split; [lia|]. exists rest. split; [|done].
    replace (Z.to_nat (rfind c s + 1)) with (S (Z.to_nat (rfind c s))) by lia.
    exact Hdrop.
Qed.

Lemma lower_char_dot (a : ascii) : Str.lower_char a = "."%char → a = "."%char.
Proof.
  destruct a as [[] [] [] [] [] [] [] []]; vm_compute; congruence.
Qed.

Lemma rfind_lower_dot (s : string) : rfind "." (Str.lower s) = rfind "." s.
Proof.
  induction s as [|a s IH]; [done|]. cbn [Str.lower rfind]. rewrite IH.
  destruct (decide (rfind "." s = -1)%Z); [|done].
  destruct (decide (a = "."%char)) as [->|Ha]; [done|].
  rewrite decide_False; [done|]. intros Hl. by apply Ha, lower_char_dot.
Qed.

(** An extension is empty, or a dot followed by a text without a dot. *)
Lemma splitext_ext_shape (p : string) :
  splitext_ext p = EmptyString ∨
  ∃ rest, splitext_ext p = String "." rest ∧ rfind "." rest = (-1)%Z.
Proof.
  unfold splitext_ext. case_bool_decide as Hdot; [|by left].
  destruct (existsb _ _); [|by left].
  destruct (rfind_spec "." p) as [Hnone|(_ & rest & Hdrop & Hrest)].
  - left. rewrite Hnone. exfalso.
    assert (-1 ≤ rfind "/" p)%Z; [|lia].
    clear. induction p as [|a p IH]; cbn [rfind]; [lia|].
    repeat case_decide; lia.
  - right. by exists rest.
Qed.

End ExtFacts.

(** X26. [os.path.splitext] gives the text from the last dot on, so the
    extension of a file name never has a second dot: the entries
    [.chunk.js], [.chunk.css], [.min.js], [.min.css], [.bundle.js] and
    [.bundle.css] of the excluded extensions never match a name. A file such
    as [app.min.js] is not skipped by the scan. *)
Theorem compound_extensions_never_match (file ext : string) :
  ext ∈ [".chunk.js"; ".chunk.css"; ".min.js"; ".min.css"; ".bundle.js"; ".bundle.css"] →
  ext ∈ excluded_extensions ∧
  Str.lower (splitext_ext file) ≠ ext ∧
  skip_name ("app" +:+ ext) = false.
Proof.
  intros Hext.
  assert (ext ∈ excluded_extensions ∧ skip_name ("app" +:+ ext) = false ∧
          ∃ rest, ext = String "." rest ∧ rfind "." rest ≠ (-1)%Z)
    as (Hin & Hskip & rest & -> & Hrest).
  { repeat (apply elem_of_cons in Hext as [->|Hext]); [..|by apply elem_of_nil in Hext];
      (split; [by apply (bool_decide_eq_true_1 _)|]);
      (split; [by vm_compute|]); eexists; (split; [reflexivity|]); by vm_compute. }
  split; [exact Hin|]. split; [|exact Hskip].
  destruct (ExtFacts.splitext_ext_shape file) as [->|(rest' & -> & Hrest')]; [done|].
  cbn [Str.lower]. intros [= Hlower]. apply Hrest.
  by rewrite <- Hlower, ExtFacts.rfind_lower_dot.
Qed.

Lemma compound_extensions_never_match_witness :
  Str.lower (splitext_ext "vendor.MIN.js") ≠ ".min.js" ∧ skip_name "app.min.js" = false.
Proof.
  destruct (compound_extensions_never_match "vendor.MIN.js" ".min.js") as (_ & Hne & Hskip).
  - apply (bool_decide_eq_true_1 _). reflexivity.
  - split; [exact Hne | exact Hskip].
Defined.

(** ** Commands typed by the user *)

Module CommandFacts.













End CommandFacts.

Section CommandParsing.

Context {E : Env}.


End CommandParsing.








